(** * qcloud: DNS-01 challenge provider for qcloud cns

    A shallow embedding of [dns/qcloud/qcloud.go].  Go strings are byte
    strings and are modelled by [string]; Go's [int] and [time.Duration]
    carry no arithmetic here and are modelled by [Z].  The vendor client and
    the framework's zone lookup are remote calls: a provider method is a tree
    of such calls ([Prog]), run against an arbitrary remote side ([run]) while
    the calls made and their answers are logged. *)

From Stdlib Require Import String Ascii List ZArith Lia Bool DecimalString.
Import ListNotations.
Local Open Scope string_scope.
Local Open Scope Z_scope.

(** ** Go runtime: errors, results, strings *)

(** A Go [error] value.  [errors_New] is a plain message (also what
    [fmt.Errorf] gives with the verb [%v]); [wrapError] is what [fmt.Errorf]
    gives with the verb [%w]: the same message, and the cause kept. *)
Inductive error : Type :=
| errors_New (msg : string)
| wrapError (msg : string) (cause : error).

Definition Error (e : error) : string :=
  match e with
  | errors_New m => m
  | wrapError m _ => m
  end.

Definition Unwrap (e : error) : option error :=
  match e with
  | errors_New _ => None
  | wrapError _ c => Some c
  end.

(** [fmt.Errorf(ctx + "%v", err)] and [fmt.Errorf(ctx + "%w", err)]. *)
Definition Errorf_v (ctx : string) (err : error) : error :=
  errors_New (ctx ++ Error err).

Definition Errorf_w (ctx : string) (err : error) : error :=
  wrapError (ctx ++ Error err) err.

(** The pair [(value, err)] a Go function returns, read the way every caller
    in this file reads it: the value counts only when [err == nil]. *)
Inductive res (A : Type) : Type :=
| OK (a : A)
| Err (e : error).
Arguments OK {A} a.
Arguments Err {A} e.

(** Why the Go runtime stopped a goroutine. *)
Inductive runtime_error : Type :=
| SliceBoundsOutOfRange (hi len : nat).

Module strings.

(** [strings.Index]: first position of [substr] in [s]; [None] is Go's -1. *)
Definition Index (s substr : string) : option nat := index 0 substr s.

(** [s[:hi]] and [s[lo:]] for indexes within bounds. *)
Definition slice_to (hi : nat) (s : string) : string := substring 0 hi s.

Definition slice_from (lo : nat) (s : string) : string :=
  substring lo (String.length s - lo) s.

(** [fmt.Sprintf("%v", n)] for an [int]. *)
Definition Sprintf_v (n : Z) : string := NilZero.string_of_int (Z.to_int n).

End strings.

(** ** The framework's name utilities (lego, package dns01) *)

Module dns01.

Fixpoint last_is_dot (s : string) : bool :=
  match s with
  | EmptyString => false
  | String c EmptyString => Ascii.eqb c "."
  | String _ rest => last_is_dot rest
  end.

(** [ToFqdn]: add the trailing dot unless the name is empty or has it. *)
Definition ToFqdn (name : string) : string :=
  if ((String.length name =? 0)%nat || last_is_dot name)%bool then name
  else name ++ ".".

(** [UnFqdn]: drop the trailing dot when there is one. *)
Definition UnFqdn (name : string) : string :=
  if last_is_dot name then strings.slice_to (String.length name - 1) name
  else name.

End dns01.

(** ** The vendor's data (package cns) *)

Module cns.

(** A hosted zone; of the vendor's fields the provider reads these two. *)
Record Domain : Type := mkDomain { DomainId : Z; DomainName : string }.

(** A record of a zone, with the fields the provider reads or sets. *)
Record Record : Type := mkRecord {
  Id : Z;
  Ttl : Z;
  Value : string;
  Name : string;
  Line : string;
  Type_ : string
}.

(** Go's zero value of [Domain]. *)
Definition zeroDomain : Domain := mkDomain 0 "".

(** The client made by [cns.New(secretId, secretKey)]. *)
Record Client : Type := New { SecretId : string; SecretKey : string }.

End cns.

(** ** Remote calls *)

(** A computation that may call the vendor API ([DomainList], [RecordList],
    [RecordCreate], [RecordDelete]) or the framework's resolver
    ([FindZoneByFqdn]), may panic, or returns.  Each call node holds the rest
    of the computation as a function of the call's answer. *)
Inductive Prog (A : Type) : Type :=
| Ret (a : A)
| Panic (e : runtime_error)
| DomainList (k : res (list cns.Domain) -> Prog A)
| FindZoneByFqdn (fqdn : string) (k : res string -> Prog A)
| RecordList (zone : string) (k : res (list cns.Record) -> Prog A)
| RecordCreate (zone : string) (r : cns.Record) (k : res Z -> Prog A)
| RecordDelete (zone : string) (id : Z) (k : option error -> Prog A).
Arguments Ret {A} a.
Arguments Panic {A} e.
Arguments DomainList {A} k.
Arguments FindZoneByFqdn {A} fqdn k.
Arguments RecordList {A} zone k.
Arguments RecordCreate {A} zone r k.
Arguments RecordDelete {A} zone id k.

Fixpoint bind {A B : Type} (p : Prog A) (f : A -> Prog B) : Prog B :=
  match p with
  | Ret a => f a
  | Panic e => Panic e
  | DomainList k => DomainList (fun x => bind (k x) f)
  | FindZoneByFqdn fqdn k => FindZoneByFqdn fqdn (fun x => bind (k x) f)
  | RecordList zone k => RecordList zone (fun x => bind (k x) f)
  | RecordCreate zone r k => RecordCreate zone r (fun x => bind (k x) f)
  | RecordDelete zone id k => RecordDelete zone id (fun x => bind (k x) f)
  end.

Declare Scope prog_scope.
Delimit Scope prog_scope with prog.
Notation "x <- c ;; k" := (bind c (fun x => k))
  (at level 61, c at next level, right associativity) : prog_scope.
Local Open Scope prog_scope.

(** One call, as logged: what was asked and what came back. *)
Inductive event : Type :=
| EDomainList (ans : res (list cns.Domain))
| EFindZoneByFqdn (fqdn : string) (ans : res string)
| ERecordList (zone : string) (ans : res (list cns.Record))
| ERecordCreate (zone : string) (r : cns.Record) (ans : res Z)
| ERecordDelete (zone : string) (id : Z) (ans : option error).

Inductive outcome (A : Type) : Type :=
| Returned (a : A)
| Panicked (e : runtime_error).
Arguments Returned {A} a.
Arguments Panicked {A} e.

(** The remote side: any state, and an answer and a next state per call. *)
Record Remote : Type := mkRemote {
  World : Type;
  doDomainList : World -> res (list cns.Domain) * World;
  doFindZoneByFqdn : string -> World -> res string * World;
  doRecordList : string -> World -> res (list cns.Record) * World;
  doRecordCreate : string -> cns.Record -> World -> res Z * World;
  doRecordDelete : string -> Z -> World -> option error * World
}.

Record Run (R : Remote) (A : Type) : Type := mkRun {
  result : outcome A;
  trace : list event;
  final : World R
}.
Arguments mkRun {R A} result trace final.
Arguments result {R A} r.
Arguments trace {R A} r.
Arguments final {R A} r.

Definition logged {R A} (ev : event) (r : Run R A) : Run R A :=
  mkRun (result r) (ev :: trace r) (final r).

Fixpoint run {R : Remote} {A : Type} (p : Prog A) (w : World R) : Run R A :=
  match p with
  | Ret a => mkRun (Returned a) [] w
  | Panic e => mkRun (Panicked e) [] w
  | DomainList k =>
      let '(ans, w') := doDomainList R w in
      logged (EDomainList ans) (run (k ans) w')
  | FindZoneByFqdn fqdn k =>
      let '(ans, w') := doFindZoneByFqdn R fqdn w in
      logged (EFindZoneByFqdn fqdn ans) (run (k ans) w')
  | RecordList zone k =>
      let '(ans, w') := doRecordList R zone w in
      logged (ERecordList zone ans) (run (k ans) w')
  | RecordCreate zone r k =>
      let '(ans, w') := doRecordCreate R zone r w in
      logged (ERecordCreate zone r ans) (run (k ans) w')
  | RecordDelete zone id k =>
      let '(ans, w') := doRecordDelete R zone id w in
      logged (ERecordDelete zone id ans) (run (k ans) w')
  end.

(** ** The provider (package qcloud) *)

Module qcloud.

(** [time.Duration]: nanoseconds. *)
Definition Duration : Type := Z.
Definition Second : Duration := 1000000000.

Record http_Client : Type := mkHttpClient { Timeout_ : Duration }.

(** [Config] is used to configure the creation of the [DNSProvider]. *)
Record Config : Type := mkConfig {
  SecretId : string;
  SecretKey : string;
  TTL : Z;
  PropagationTimeout : Duration;
  PollingInterval : Duration;
  HTTPClient : option http_Client
}.

(** [DNSProvider]; both fields are set by [NewDNSProviderConfig], the only
    place of the package that builds one, from a configuration that was
    checked not to be nil. *)
Record DNSProvider : Type := mkDNSProvider {
  config : Config;
  client : cns.Client
}.

(** Go's read of a [map[string]string]: the empty string for a key that is
    not there. *)
Fixpoint map_get (m : list (string * string)) (key : string) : string :=
  match m with
  | [] => ""
  | (k, v) :: rest => if String.eqb k key then v else map_get rest key
  end.

Section Construction.

(** The framework's readers of the process environment (package env). *)
Variable env_Get : list string -> res (list (string * string)).
Variable env_GetOrDefaultInt : string -> Z -> Z.
Variable env_GetOrDefaultSecond : string -> Duration -> Duration.
(** [dns01.DefaultPropagationTimeout] and [dns01.DefaultPollingInterval]. *)
Variable DefaultPropagationTimeout DefaultPollingInterval : Duration.

Definition NewDefaultConfig : Config :=
  {| SecretId := "";
     SecretKey := "";
     TTL := env_GetOrDefaultInt "QCLOUD_TTL" 600;
     PropagationTimeout :=
       env_GetOrDefaultSecond "QCLOUD_PROPAGATION_TIMEOUT" DefaultPropagationTimeout;
     PollingInterval :=
       env_GetOrDefaultSecond "QCLOUD_POLLING_INTERVAL" DefaultPollingInterval;
     HTTPClient :=
       Some (mkHttpClient (env_GetOrDefaultSecond "QCLOUD_HTTP_TIMEOUT" 0)) |}.

(** [NewDNSProviderConfig]; [None] is the nil configuration. *)
Definition NewDNSProviderConfig (config : option Config) : res DNSProvider :=
  match config with
  | None =>
      Err (errors_New "qcloud cns: the configuration of the DNS provider is nil")
  | Some config =>
      if String.eqb (SecretKey config) "" then
        Err (errors_New "qcloud cns: credentials missing")
      else
        let client := cns.New (SecretId config) (SecretKey config) in
        OK {| client := client; config := config |}
  end.

Definition with_secrets (c : Config) (id key : string) : Config :=
  {| SecretId := id;
     SecretKey := key;
     TTL := TTL c;
     PropagationTimeout := PropagationTimeout c;
     PollingInterval := PollingInterval c;
     HTTPClient := HTTPClient c |}.

Definition NewDNSProvider : res DNSProvider :=
  match env_Get ["QCLOUD_SECRET_ID"; "QCLOUD_SECRET_KEY"] with
  | Err err => Err (Errorf_w "qcloud cns: " err)
  | OK values =>
      let config := NewDefaultConfig in
      let config :=
        with_secrets config
          (map_get values "QCLOUD_SECRET_ID") (map_get values "QCLOUD_SECRET_KEY") in
      NewDNSProviderConfig (Some config)
  end.

End Construction.

(** [Timeout] returns the timeout and interval to use when checking for
    DNS propagation. *)
Definition Timeout (d : DNSProvider) : Prog (Duration * Duration) :=
  Ret (PropagationTimeout (config d), PollingInterval (config d)).

(** [extractRecordName]. *)
Definition extractRecordName (fqdn domain : string) : string :=
  let name := dns01.UnFqdn fqdn in
  match strings.Index name ("." ++ domain) with
  | Some idx => strings.slice_to idx name
  | None => name
  end.

(** The bytes of the vendor's name of the default line (two Chinese
    characters in UTF-8). *)
Definition default_line : string :=
  String "233" (String "187" (String "152"
    (String "232" (String "174" (String "164" EmptyString))))).

(** [newTxtRecord]; the fields it leaves out keep Go's zero value. *)
Definition newTxtRecord (zone fqdn value : string) (ttl : Z) : cns.Record :=
  let name := extractRecordName fqdn zone in
  {| cns.Id := 0;
     cns.Type_ := "TXT";
     cns.Name := name;
     cns.Value := value;
     cns.Line := default_line;
     cns.Ttl := ttl |}.

(** The loop of [getHostedZone]: every zone of that name overwrites
    [hostedZone], which starts as the zero value. *)
Definition pickZone (zones : list cns.Domain) (name : string) : cns.Domain :=
  fold_left
    (fun hostedZone zone =>
       if String.eqb (cns.DomainName zone) name then zone else hostedZone)
    zones cns.zeroDomain.

Definition zone_not_found (authZone domain : string) : error :=
  errors_New ("getHostedZone: zone " ++ authZone
              ++ " not found in qcloud cns for domain " ++ domain).

(** [getHostedZone]: the zone's id in decimal and its name. *)
Definition getHostedZone (d : DNSProvider) (domain : string)
  : Prog (res (string * string)) :=
  DomainList (fun zones =>
    match zones with
    | Err err =>
        Ret (Err (Errorf_v "qcloud cns: DomainList() API call failed: " err))
    | OK zones =>
        FindZoneByFqdn (dns01.ToFqdn domain) (fun authZone =>
          match authZone with
          | Err err => Ret (Err err)
          | OK authZone =>
              let hostedZone := pickZone zones (dns01.UnFqdn authZone) in
              if cns.DomainId hostedZone =? 0 then
                Ret (Err (zone_not_found authZone domain))
              else
                Ret (OK (strings.Sprintf_v (cns.DomainId hostedZone),
                         cns.DomainName hostedZone))
          end)
    end).

(** [findTxtRecords]. *)
Definition findTxtRecords (d : DNSProvider) (domain fqdn : string)
  : Prog (res (list cns.Record)) :=
  zone <- getHostedZone d domain ;;
  match zone with
  | Err err => Ret (Err err)
  | OK (_, zoneName) =>
      RecordList zoneName (fun result =>
        match result with
        | Err err =>
            Ret (Err (Errorf_v "qcloud cns: RecordList() API call has failed: " err))
        | OK result =>
            let recordName := extractRecordName fqdn zoneName in
            Ret (OK (filter (fun record => String.eqb (cns.Name record) recordName)
                            result))
        end)
  end.

(** The wildcard fixup that opens [Present] and [CleanUp]:
    [if domain[:2] == "*." { domain = domain[2:] }].  The slice [domain[:2]]
    is taken whatever the length. *)
Definition wildcardFixup (domain : string) : runtime_error + string :=
  if (String.length domain <? 2)%nat then
    inl (SliceBoundsOutOfRange 2 (String.length domain))
  else if String.eqb (strings.slice_to 2 domain) "*." then
    inr (strings.slice_from 2 domain)
  else inr domain.

(** The loop of [CleanUp] over the records found. *)
Fixpoint deleteRecords (zoneName : string) (records : list cns.Record)
  : Prog (option error) :=
  match records with
  | [] => Ret None
  | rec :: rest =>
      RecordDelete zoneName (cns.Id rec) (fun err =>
        match err with
        | Some err =>
            Ret (Some (Errorf_w "CleanUp(): qcloud cns: RecordDelete err: " err))
        | None => deleteRecords zoneName rest
        end)
  end.

Section Operations.

(** [dns01.GetRecord]: the challenge's FQDN and TXT value for a domain
    and a key authorization. *)
Variable GetRecord : string -> string -> string * string.

(** [Present] from its second statement on, for the fixed-up domain. *)
Definition presentDomain (d : DNSProvider) (domain keyAuth : string)
  : Prog (option error) :=
  let '(fqdn, value) := GetRecord domain keyAuth in
  zone <- getHostedZone d domain ;;
  match zone with
  | Err err => Ret (Some err)
  | OK (_, zoneName) =>
      let recordAttributes := newTxtRecord zoneName fqdn value (TTL (config d)) in
      RecordCreate zoneName recordAttributes (fun created =>
        match created with
        | Err err =>
            Ret (Some (Errorf_v "qcloud cns: RecordCreate() API call failed: " err))
        | OK _ => Ret None
        end)
  end.

(** [Present] creates a TXT record to fulfill the dns-01 challenge. *)
Definition Present (d : DNSProvider) (domain token keyAuth : string)
  : Prog (option error) :=
  match wildcardFixup domain with
  | inl e => Panic e
  | inr domain => presentDomain d domain keyAuth
  end.

(** [CleanUp] from its second statement on, for the fixed-up domain. *)
Definition cleanUpDomain (d : DNSProvider) (domain keyAuth : string)
  : Prog (option error) :=
  let '(fqdn, _) := GetRecord domain keyAuth in
  records <- findTxtRecords d domain fqdn ;;
  match records with
  | Err err => Ret (Some (Errorf_w "CleanUp(): findTxtRecords err: " err))
  | OK records =>
      zone <- getHostedZone d domain ;;
      match zone with
      | Err err => Ret (Some (Errorf_w "CleanUp(): getHostedZone err: " err))
      | OK (_, zoneName) => deleteRecords zoneName records
      end
  end.

(** [CleanUp] removes the TXT record matching the specified parameters. *)
Definition CleanUp (d : DNSProvider) (domain token keyAuth : string)
  : Prog (option error) :=
  match wildcardFixup domain with
  | inl e => Panic e
  | inr domain => cleanUpDomain d domain keyAuth
  end.

End Operations.

End qcloud.

(** ** Reading a trace *)

(** The four places of the source that call the vendor API. *)
Inductive site : Type :=
| DomainListSite
| RecordListSite
| RecordCreateSite
| RecordDeleteSite.

Definition site_eqb (a b : site) : bool :=
  match a, b with
  | DomainListSite, DomainListSite
  | RecordListSite, RecordListSite
  | RecordCreateSite, RecordCreateSite
  | RecordDeleteSite, RecordDeleteSite => true
  | _, _ => false
  end.

(** The vendor call site an event comes from; the resolver's lookup is not a
    vendor call. *)
Definition site_of (ev : event) : option site :=
  match ev with
  | EDomainList _ => Some DomainListSite
  | EFindZoneByFqdn _ _ => None
  | ERecordList _ _ => Some RecordListSite
  | ERecordCreate _ _ _ => Some RecordCreateSite
  | ERecordDelete _ _ _ => Some RecordDeleteSite
  end.

Definition from_site (s : site) (ev : event) : bool :=
  match site_of ev with
  | Some s' => site_eqb s s'
  | None => false
  end.

(** How many times a call site was executed. *)
Definition executions (s : site) (tr : list event) : nat :=
  List.length (filter (from_site s) tr).

(** The error of a vendor call that failed. *)
Definition failure_of (ev : event) : option error :=
  match ev with
  | EDomainList (Err e) => Some e
  | ERecordList _ (Err e) => Some e
  | ERecordCreate _ _ (Err e) => Some e
  | ERecordDelete _ _ (Some e) => Some e
  | _ => None
  end.

(** The first vendor failure of a trace, with what was logged after it. *)
Fixpoint first_failure (tr : list event) : option (error * list event) :=
  match tr with
  | [] => None
  | ev :: rest =>
      match failure_of ev with
      | Some e => Some (e, rest)
      | None => first_failure rest
      end
  end.

(** The ids a trace asked the vendor to delete, in order. *)
Fixpoint deleted_ids (tr : list event) : list Z :=
  match tr with
  | [] => []
  | ERecordDelete _ id _ :: rest => id :: deleted_ids rest
  | _ :: rest => deleted_ids rest
  end.




(** ** The runs of each method, by shape *)

Module shape.
Import qcloud.

(** What a run of [getHostedZone domain] logs and returns. *)
Inductive hostedZone (domain : string)
  : list event -> res (string * string) -> Prop :=
| hz_list_failed e :
    hostedZone domain
      [EDomainList (Err e)]
      (Err (Errorf_v "qcloud cns: DomainList() API call failed: " e))
| hz_lookup_failed zones e :
    hostedZone domain
      [EDomainList (OK zones); EFindZoneByFqdn (dns01.ToFqdn domain) (Err e)]
      (Err e)
| hz_not_found zones authZone :
    cns.DomainId (pickZone zones (dns01.UnFqdn authZone)) = 0 ->
    hostedZone domain
      [EDomainList (OK zones); EFindZoneByFqdn (dns01.ToFqdn domain) (OK authZone)]
      (Err (zone_not_found authZone domain))
| hz_found zones authZone :
    cns.DomainId (pickZone zones (dns01.UnFqdn authZone)) <> 0 ->
    hostedZone domain
      [EDomainList (OK zones); EFindZoneByFqdn (dns01.ToFqdn domain) (OK authZone)]
      (OK (strings.Sprintf_v (cns.DomainId (pickZone zones (dns01.UnFqdn authZone))),
           cns.DomainName (pickZone zones (dns01.UnFqdn authZone)))).

(** What a run of [presentDomain] logs and returns. *)
Inductive present (d : DNSProvider) (domain fqdn value : string)
  : list event -> option error -> Prop :=
| present_no_zone tr e :
    hostedZone domain tr (Err e) ->
    present d domain fqdn value tr (Some e)
| present_create_failed tr id zoneName e :
    hostedZone domain tr (OK (id, zoneName)) ->
    present d domain fqdn value
      (tr ++ [ERecordCreate zoneName
                (newTxtRecord zoneName fqdn value (TTL (config d))) (Err e)])
      (Some (Errorf_v "qcloud cns: RecordCreate() API call failed: " e))
| present_created tr id zoneName n :
    hostedZone domain tr (OK (id, zoneName)) ->
    present d domain fqdn value
      (tr ++ [ERecordCreate zoneName
                (newTxtRecord zoneName fqdn value (TTL (config d))) (OK n)])
      None.

(** What a run of [findTxtRecords] logs and returns. *)
Inductive txtRecords (domain fqdn : string)
  : list event -> res (list cns.Record) -> Prop :=
| txt_no_zone tr e :
    hostedZone domain tr (Err e) ->
    txtRecords domain fqdn tr (Err e)
| txt_list_failed tr id zoneName e :
    hostedZone domain tr (OK (id, zoneName)) ->
    txtRecords domain fqdn
      (tr ++ [ERecordList zoneName (Err e)])
      (Err (Errorf_v "qcloud cns: RecordList() API call has failed: " e))
| txt_listed tr id zoneName listing :
    hostedZone domain tr (OK (id, zoneName)) ->
    txtRecords domain fqdn
      (tr ++ [ERecordList zoneName (OK listing)])
      (OK (filter
             (fun record =>
                String.eqb (cns.Name record) (extractRecordName fqdn zoneName))
             listing)).

(** What a run of [deleteRecords] logs and returns. *)
Inductive deletes (zoneName : string)
  : list cns.Record -> list event -> option error -> Prop :=
| del_done : deletes zoneName [] [] None
| del_failed rec rest e :
    deletes zoneName (rec :: rest)
      [ERecordDelete zoneName (cns.Id rec) (Some e)]
      (Some (Errorf_w "CleanUp(): qcloud cns: RecordDelete err: " e))
| del_next rec rest tr out :
    deletes zoneName rest tr out ->
    deletes zoneName (rec :: rest)
      (ERecordDelete zoneName (cns.Id rec) None :: tr) out.

(** What a run of [cleanUpDomain] logs and returns. *)
Inductive cleanUp (domain fqdn : string) : list event -> option error -> Prop :=
| clean_find_failed tr e :
    txtRecords domain fqdn tr (Err e) ->
    cleanUp domain fqdn tr
      (Some (Errorf_w "CleanUp(): findTxtRecords err: " e))
| clean_no_zone tr records tr' e :
    txtRecords domain fqdn tr (OK records) ->
    hostedZone domain tr' (Err e) ->
    cleanUp domain fqdn (tr ++ tr')
      (Some (Errorf_w "CleanUp(): getHostedZone err: " e))
| clean_deletes tr records tr' id zoneName tr'' out :
    txtRecords domain fqdn tr (OK records) ->
    hostedZone domain tr' (OK (id, zoneName)) ->
    deletes zoneName records tr'' out ->
    cleanUp domain fqdn (tr ++ tr' ++ tr'') out.

End shape.

(** ** A vendor account kept in memory, for the examples *)

Module account.

Definition relabel (id : Z) (r : cns.Record) : cns.Record :=
  {| cns.Id := id;
     cns.Ttl := cns.Ttl r;
     cns.Value := cns.Value r;
     cns.Name := cns.Name r;
     cns.Line := cns.Line r;
     cns.Type_ := cns.Type_ r |}.

Definition next_id (w : list cns.Record) : Z :=
  1 + fold_right (fun r m => Z.max (cns.Id r) m) 0 w.

(** An account with the hosted zones [zones]; the resolver answers [auth];
    the state is the record list of the zone in use; deleting a record
    whose id is in [locked] fails. *)
Definition remote (zones : list cns.Domain) (auth : res string) (locked : list Z)
  : Remote :=
  {| World := list cns.Record;
     doDomainList := fun w => (OK zones, w);
     doFindZoneByFqdn := fun _ w => (auth, w);
     doRecordList := fun _ w => (OK w, w);
     doRecordCreate := fun _ r w =>
       (OK (next_id w), (w ++ [relabel (next_id w) r])%list);
     doRecordDelete := fun _ id w =>
       if existsb (Z.eqb id) locked
       then (Some (errors_New "record is locked"), w)
       else (None, filter (fun r => negb (cns.Id r =? id)) w) |}.

(** The framework's [GetRecord] when no CNAME is followed; the value is
    the digest of the empty key authorization, the one the examples use. *)
Definition GetRecord (domain keyAuth : string) : string * string :=
  ("_acme-challenge." ++ domain ++ ".",
   "47DEQpj8HBSa-_TImW-5JCeuQeRkm5NMpJWZG3hSuFU").

Definition provider : qcloud.DNSProvider :=
  {| qcloud.config :=
       {| qcloud.SecretId := "AKIDexample";
          qcloud.SecretKey := "secret";
          qcloud.TTL := 600;
          qcloud.PropagationTimeout := 60 * qcloud.Second;
          qcloud.PollingInterval := 2 * qcloud.Second;
          qcloud.HTTPClient := Some (qcloud.mkHttpClient 0) |};
     qcloud.client := cns.New "AKIDexample" "secret" |}.

Definition txt (id : Z) (name value : string) : cns.Record :=
  cns.mkRecord id 600 value name qcloud.default_line "TXT".

End account.

(** ** The record name in the words of the specification *)

Module spec.

(** [s] ends with [suffix]. *)
Definition has_suffix (suffix s : string) : bool :=
  ((String.length suffix <=? String.length s)%nat
   && String.eqb
        (substring (String.length s - String.length suffix)
                   (String.length suffix) s)
        suffix)%bool.

(** [s] without [suffix] at its end, and [s] itself when it does not end
    with it. *)
Definition trim_suffix (s suffix : string) : string :=
  if has_suffix suffix s
  then substring 0 (String.length s - String.length suffix) s
  else s.

(** The leaf name: the FQDN with its trailing dot removed and with the zone
    suffix, a dot followed by the zone name, removed from the end. *)
Definition leaf_name (fqdn zone : string) : string :=
  trim_suffix (dns01.UnFqdn fqdn) ("." ++ zone).

(** The domain the operations are to work on: without the wildcard prefix
    when it has one, unchanged otherwise. *)
Definition without_wildcard (domain : string) : string :=
  if prefix "*." domain then strings.slice_from 2 domain else domain.

End spec.

(** ** An environment for the examples *)

Module sample.

(** The variables set: the two credentials and a TTL. *)
Definition vars : list (string * string) :=
  [("QCLOUD_SECRET_ID", "AKIDexample"); ("QCLOUD_SECRET_KEY", "secret");
   ("QCLOUD_TTL", "120")].

(** The framework's [env.Get] on [vars]: the values of the names asked, or
    an error when one of them is unset or empty. *)
Definition env_Get (names : list string) : res (list (string * string)) :=
  match filter (fun name => String.eqb (qcloud.map_get vars name) "") names with
  | [] => OK (map (fun name => (name, qcloud.map_get vars name)) names)
  | missing =>
      Err (errors_New ("some credentials information are missing: "
                       ++ String.concat "," missing))
  end.

(** [env.GetOrDefaultInt] and [env.GetOrDefaultSecond] on [vars]: the TTL is
    set, the durations are not. *)
Definition env_GetOrDefaultInt (name : string) (default : Z) : Z :=
  if String.eqb name "QCLOUD_TTL" then 120 else default.

Definition env_GetOrDefaultSecond (name : string) (default : Z) : Z := default.

End sample.

(** The first vendor call of a trace that failed. *)
Fixpoint first_failed (tr : list event) : option event :=
  match tr with
  | [] => None
  | ev :: rest =>
      match failure_of ev with
      | Some _ => Some ev
      | None => first_failed rest
      end
  end.

(** ** Basic facts about runs *)

Lemma run_bind {R : Remote} {A B : Type} (p : Prog A) (f : A -> Prog B) :
  forall w : World R,
    run (bind p f) w =
    match result (run p w) with
    | Returned a =>
        let r := run (f a) (final (run p w)) in
        mkRun (result r) (trace (run p w) ++ trace r) (final r)
    | Panicked e => mkRun (Panicked e) (trace (run p w)) (final (run p w))
    end.
Proof.
  induction p as [a | e | k IH | fqdn k IH | zone k IH | zone r k IH | zone id k IH];
    intros w; simpl.
  - destruct (run (f a) w); reflexivity.
  - reflexivity.
  - destruct (doDomainList R w) as [ans w']. rewrite IH.
    unfold logged; simpl. destruct (result (run (k ans) w')); reflexivity.
  - destruct (doFindZoneByFqdn R fqdn w) as [ans w']. rewrite IH.
    unfold logged; simpl. destruct (result (run (k ans) w')); reflexivity.
  - destruct (doRecordList R zone w) as [ans w']. rewrite IH.
    unfold logged; simpl. destruct (result (run (k ans) w')); reflexivity.
  - destruct (doRecordCreate R zone r w) as [ans w']. rewrite IH.
    unfold logged; simpl. destruct (result (run (k ans) w')); reflexivity.
  - destruct (doRecordDelete R zone id w) as [ans w']. rewrite IH.
    unfold logged; simpl. destruct (result (run (k ans) w')); reflexivity.
Qed.

Section Shapes.
Import qcloud.
Context {R : Remote}.
Variable GetRecord : string -> string -> string * string.

Local Arguments getHostedZone : simpl never.
Local Arguments findTxtRecords : simpl never.

Lemma getHostedZone_shape d domain (w : World R) :
  exists z,
    result (run (getHostedZone d domain) w) = Returned z
    /\ shape.hostedZone domain (trace (run (getHostedZone d domain) w)) z.
Proof.
  unfold getHostedZone; simpl.
  destruct (doDomainList R w) as [[zones | e] w1]; simpl.
  - destruct (doFindZoneByFqdn R (dns01.ToFqdn domain) w1) as [[authZone | e] w2];
      simpl.
    + destruct (Z.eqb_spec (cns.DomainId (pickZone zones (dns01.UnFqdn authZone))) 0)
        as [Hz | Hz]; simpl; eexists; split; try reflexivity.
      * now apply shape.hz_not_found.
      * now apply shape.hz_found.
    + eexists; split; [reflexivity | apply shape.hz_lookup_failed].
  - eexists; split; [reflexivity | apply shape.hz_list_failed].
Qed.

Lemma findTxtRecords_shape d domain fqdn (w : World R) :
  exists z,
    result (run (findTxtRecords d domain fqdn) w) = Returned z
    /\ shape.txtRecords domain fqdn (trace (run (findTxtRecords d domain fqdn) w)) z.
Proof.
  unfold findTxtRecords. rewrite run_bind.
  destruct (getHostedZone_shape d domain w) as [z [Hres Hz]].
  rewrite Hres. destruct z as [[id zoneName] | e]; cbn.
  - destruct (doRecordList R zoneName _) as [[listing | e] w1]; cbn;
      eexists; (split; [reflexivity |]).
    + eapply shape.txt_listed; eassumption.
    + eapply shape.txt_list_failed; eassumption.
  - rewrite app_nil_r. eexists; split; [reflexivity |].
    now apply shape.txt_no_zone.
Qed.

Lemma deleteRecords_shape zoneName records :
  forall w : World R,
  exists out,
    result (run (deleteRecords zoneName records) w) = Returned out
    /\ shape.deletes zoneName records
         (trace (run (deleteRecords zoneName records) w)) out.
Proof.
  induction records as [| rec rest IH]; intros w; cbn.
  - exists None; split; [reflexivity | constructor].
  - destruct (doRecordDelete R zoneName (cns.Id rec) w) as [[e |] w1]; cbn.
    + eexists; split; [reflexivity | apply shape.del_failed].
    + destruct (IH w1) as [out [Hres Hd]].
      exists out; split; [assumption | now apply shape.del_next].
Qed.

Lemma presentDomain_shape d domain keyAuth (w : World R) :
  exists out,
    result (run (presentDomain GetRecord d domain keyAuth) w) = Returned out
    /\ shape.present d domain
         (fst (GetRecord domain keyAuth)) (snd (GetRecord domain keyAuth))
         (trace (run (presentDomain GetRecord d domain keyAuth) w)) out.
Proof.
  unfold presentDomain. destruct (GetRecord domain keyAuth) as [fqdn value]; cbn.
  rewrite run_bind.
  destruct (getHostedZone_shape d domain w) as [z [Hres Hz]].
  rewrite Hres. destruct z as [[id zoneName] | e]; cbn.
  - destruct (doRecordCreate R zoneName _ _) as [[n | e] w1]; cbn;
      eexists; (split; [reflexivity |]).
    + eapply shape.present_created; eassumption.
    + eapply shape.present_create_failed; eassumption.
  - rewrite app_nil_r. eexists; split; [reflexivity |].
    now apply shape.present_no_zone.
Qed.

Lemma cleanUpDomain_shape d domain keyAuth (w : World R) :
  exists out,
    result (run (cleanUpDomain GetRecord d domain keyAuth) w) = Returned out
    /\ shape.cleanUp domain (fst (GetRecord domain keyAuth))
         (trace (run (cleanUpDomain GetRecord d domain keyAuth) w)) out.
Proof.
  unfold cleanUpDomain. destruct (GetRecord domain keyAuth) as [fqdn value]; cbn.
  rewrite run_bind.
  destruct (findTxtRecords_shape d domain fqdn w) as [z [Hres Hz]].
  rewrite Hres. destruct z as [records | e]; cbn.
  - rewrite run_bind.
    destruct (getHostedZone_shape d domain (final (run (findTxtRecords d domain fqdn) w)))
      as [z' [Hres' Hz']].
    rewrite Hres'. destruct z' as [[id zoneName] | e]; cbn.
    + destruct (deleteRecords_shape zoneName records
                  (final (run (getHostedZone d domain)
                            (final (run (findTxtRecords d domain fqdn) w)))))
        as [out [Hres'' Hd]].
      exists out; split; [assumption |].
      eapply shape.clean_deletes; eassumption.
    + rewrite app_nil_r. eexists; split; [reflexivity |].
      eapply shape.clean_no_zone; eassumption.
  - rewrite app_nil_r. eexists; split; [reflexivity |].
    now apply shape.clean_find_failed.
Qed.

End Shapes.

(** ** The wildcard fixup *)

Lemma slice_to_2_is_prefix (domain : string) :
  (2 <= String.length domain)%nat ->
  String.eqb (strings.slice_to 2 domain) "*." = prefix "*." domain.
Proof.
  destruct domain as [| a [| b rest]]; cbn [String.length]; try lia.
  intros _.
  assert (Hs : strings.slice_to 2 (String a (String b rest)) = String a (String b ""))
    by (destruct rest; reflexivity).
  rewrite Hs. cbn [String.eqb prefix].
  destruct (ascii_dec "*" a) as [<- | Ha].
  - rewrite Ascii.eqb_refl.
    destruct (ascii_dec "." b) as [<- | Hb].
    + rewrite Ascii.eqb_refl. destruct rest; reflexivity.
    + destruct (Ascii.eqb_spec b "."); [congruence | reflexivity].
  - destruct (Ascii.eqb_spec a "*"); [congruence | reflexivity].
Qed.

(** With two bytes or more the fixup gives the domain the specification
    names. *)
Lemma wildcardFixup_two_bytes (domain : string) :
  (2 <= String.length domain)%nat ->
  qcloud.wildcardFixup domain = inr (spec.without_wildcard domain).
Proof.
  intros Hlen. unfold qcloud.wildcardFixup, spec.without_wildcard.
  destruct (Nat.ltb_spec (String.length domain) 2) as [Hlt | _]; [lia |].
  rewrite slice_to_2_is_prefix by assumption.
  destruct (prefix "*." domain); reflexivity.
Qed.

Lemma wildcardFixup_short (domain : string) :
  (String.length domain < 2)%nat ->
  qcloud.wildcardFixup domain = inl (SliceBoundsOutOfRange 2 (String.length domain)).
Proof.
  intros Hlen. unfold qcloud.wildcardFixup.
  destruct (Nat.ltb_spec (String.length domain) 2) as [_ | Hge]; [reflexivity | lia].
Qed.

(** C4.  [Present] and [CleanUp] take the slice [domain[:2]] before anything
    else: for every domain shorter than two bytes both stop with the
    runtime's slice-bounds panic; they return no error value, and no call is
    made and the remote side is left as it was. *)
Theorem short_domain_panics :
  forall (R : Remote) (GetRecord : string -> string -> string * string)
         (d : qcloud.DNSProvider) (domain token keyAuth : string) (w : World R),
    (String.length domain < 2)%nat ->
    run (qcloud.Present GetRecord d domain token keyAuth) w
      = mkRun (Panicked (SliceBoundsOutOfRange 2 (String.length domain))) [] w
    /\ run (qcloud.CleanUp GetRecord d domain token keyAuth) w
      = mkRun (Panicked (SliceBoundsOutOfRange 2 (String.length domain))) [] w.
Proof.
  intros R GetRecord d domain token keyAuth w Hlen.
  unfold qcloud.Present, qcloud.CleanUp.
  rewrite (wildcardFixup_short domain Hlen). split; reflexivity.
Qed.

Lemma short_domain_panics_witness :
  (String.length "a" < 2)%nat
  /\ @run (account.remote [] (OK "a.") []) _
        (qcloud.Present account.GetRecord account.provider "a" "token" "") []
     = @mkRun (account.remote [] (OK "a.") []) _
         (Panicked (SliceBoundsOutOfRange 2 1)) [] []
  /\ @run (account.remote [] (OK "a.") []) _
        (qcloud.CleanUp account.GetRecord account.provider "" "token" "") []
     = @mkRun (account.remote [] (OK "a.") []) _
         (Panicked (SliceBoundsOutOfRange 2 0)) [] [].
Proof.
  split; [simpl; lia |]. split.
  - apply (short_domain_panics (account.remote [] (OK "a.") []) account.GetRecord
             account.provider "a" "token" "" []). simpl; lia.
  - apply (short_domain_panics (account.remote [] (OK "a.") []) account.GetRecord
             account.provider "" "token" "" []). simpl; lia.
Defined.

(** For a domain of two bytes or more, [Present] and [CleanUp] are the rest
    of their bodies run on the domain without its wildcard prefix. *)
Lemma operations_after_fixup :
  forall (GetRecord : string -> string -> string * string)
         (d : qcloud.DNSProvider) (domain token keyAuth : string),
    (2 <= String.length domain)%nat ->
    qcloud.Present GetRecord d domain token keyAuth
      = qcloud.presentDomain GetRecord d (spec.without_wildcard domain) keyAuth
    /\ qcloud.CleanUp GetRecord d domain token keyAuth
      = qcloud.cleanUpDomain GetRecord d (spec.without_wildcard domain) keyAuth.
Proof.
  intros GetRecord d domain token keyAuth Hlen.
  unfold qcloud.Present, qcloud.CleanUp.
  rewrite (wildcardFixup_two_bytes domain Hlen). split; reflexivity.
Qed.

(** C3, at the input where the code leaves it.  The one-byte domain ["a"]
    does not begin with the wildcard prefix, so it is to be used unchanged;
    [Present] and [CleanUp] stop in the slice [domain[:2]] instead and never
    get to use it: nothing is computed from it and no call is made. *)
Theorem one_byte_domain_is_never_used :
  prefix "*." "a" = false
  /\ spec.without_wildcard "a" = "a"
  /\ forall (R : Remote) (GetRecord : string -> string -> string * string)
            (d : qcloud.DNSProvider) (token keyAuth : string) (w : World R),
       run (qcloud.Present GetRecord d "a" token keyAuth) w
         = mkRun (Panicked (SliceBoundsOutOfRange 2 1)) [] w
       /\ run (qcloud.CleanUp GetRecord d "a" token keyAuth) w
         = mkRun (Panicked (SliceBoundsOutOfRange 2 1)) [] w.
Proof.
  split; [reflexivity |]. split; [reflexivity |].
  intros R GetRecord d token keyAuth w. split; reflexivity.
Qed.

(** ** Timeout *)


(** ** Construction *)

Section ConstructionFacts.
Import qcloud.

Variable env_Get : list string -> res (list (string * string)).
Variable env_GetOrDefaultInt : string -> Z -> Z.
Variable env_GetOrDefaultSecond : string -> Duration -> Duration.
Variable DefaultPropagationTimeout DefaultPollingInterval : Duration.

(** A nil configuration is refused. *)
Lemma NewDNSProviderConfig_nil :
  NewDNSProviderConfig None
  = Err (errors_New "qcloud cns: the configuration of the DNS provider is nil").
Proof. reflexivity. Qed.

(** An empty [SecretKey] is refused. *)
Lemma NewDNSProviderConfig_no_key (c : Config) :
  SecretKey c = "" ->
  NewDNSProviderConfig (Some c) = Err (errors_New "qcloud cns: credentials missing").
Proof.
  intros Hk. unfold NewDNSProviderConfig. rewrite Hk. reflexivity.
Qed.

(** What is checked at construction: the provider made holds the
    configuration, a client with its two strings, and a key that is not
    empty.  Nothing is said of [SecretId]. *)
Lemma NewDNSProviderConfig_built (c : option Config) (d : DNSProvider) :
  NewDNSProviderConfig c = OK d ->
  c = Some (config d)
  /\ client d = cns.New (SecretId (config d)) (SecretKey (config d))
  /\ SecretKey (config d) <> "".
Proof.
  unfold NewDNSProviderConfig. destruct c as [c |]; [| discriminate].
  destruct (String.eqb_spec (SecretKey c) "") as [Hk | Hk]; [discriminate |].
  intros H. injection H as <-. simpl. auto.
Qed.

(** [NewDNSProvider] wraps the error of the environment reader: the
    message is prefixed and the cause can be unwrapped. *)
Lemma NewDNSProvider_missing_environment (err : error) :
  env_Get ["QCLOUD_SECRET_ID"; "QCLOUD_SECRET_KEY"] = Err err ->
  exists wrapped,
    NewDNSProvider env_Get env_GetOrDefaultInt env_GetOrDefaultSecond
      DefaultPropagationTimeout DefaultPollingInterval
    = Err wrapped
    /\ Error wrapped = "qcloud cns: " ++ Error err
    /\ Unwrap wrapped = Some err.
Proof.
  intros He. unfold NewDNSProvider. rewrite He.
  eexists; split; [reflexivity |]. split; reflexivity.
Qed.

(** With the environment read, [NewDNSProvider] is [NewDNSProviderConfig]
    on the default configuration holding the two values read. *)
Lemma NewDNSProvider_from_environment (values : list (string * string)) :
  env_Get ["QCLOUD_SECRET_ID"; "QCLOUD_SECRET_KEY"] = OK values ->
  NewDNSProvider env_Get env_GetOrDefaultInt env_GetOrDefaultSecond
    DefaultPropagationTimeout DefaultPollingInterval
  = NewDNSProviderConfig
      (Some (with_secrets
               (NewDefaultConfig env_GetOrDefaultInt env_GetOrDefaultSecond
                  DefaultPropagationTimeout DefaultPollingInterval)
               (map_get values "QCLOUD_SECRET_ID")
               (map_get values "QCLOUD_SECRET_KEY"))).
Proof.
  intros He. unfold NewDNSProvider. rewrite He. reflexivity.
Qed.

End ConstructionFacts.

(** C6, at the input where the code leaves it.  A configuration whose
    [SecretId] is empty and whose [SecretKey] is not passes the check of
    [NewDNSProviderConfig], whose message speaks of credentials: a provider
    is built whose client carries an empty secret id. *)
Theorem NewDNSProviderConfig_accepts_empty_SecretId :
  let c := qcloud.mkConfig "" "secret" 600 (60 * qcloud.Second) (2 * qcloud.Second) None in
  qcloud.SecretId c = ""
  /\ qcloud.NewDNSProviderConfig (Some c)
     = OK (qcloud.mkDNSProvider c (cns.New "" "secret"))
  /\ qcloud.NewDNSProviderConfig (Some (qcloud.with_secrets c "id" ""))
     = Err (errors_New "qcloud cns: credentials missing").
Proof.
  cbv zeta. split; [reflexivity |]. split; reflexivity.
Qed.

(** ** The record name *)

(** [extractRecordName] cuts the name at the first place where a dot and the
    zone name occur, wherever that is. *)
Lemma extractRecordName_cut (fqdn zone : string) :
  qcloud.extractRecordName fqdn zone
  = match index 0 ("." ++ zone) (dns01.UnFqdn fqdn) with
    | Some idx => substring 0 idx (dns01.UnFqdn fqdn)
    | None => dns01.UnFqdn fqdn
    end.
Proof. reflexivity. Qed.

(** X16.  When the zone suffix occurs in the name at its end only, or not at all,
    the name extracted is the leaf name of the specification. *)
Lemma extractRecordName_suffix_only (fqdn zone : string) :
  (forall idx,
      strings.Index (dns01.UnFqdn fqdn) ("." ++ zone) = Some idx ->
      (idx + String.length ("." ++ zone) = String.length (dns01.UnFqdn fqdn))%nat) ->
  qcloud.extractRecordName fqdn zone = spec.leaf_name fqdn zone.
Proof.
  intros Hend.
  unfold qcloud.extractRecordName, spec.leaf_name, spec.trim_suffix, spec.has_suffix.
  set (name := dns01.UnFqdn fqdn) in *. set (suffix := "." ++ zone) in *.
  unfold strings.Index in *.
  destruct (index 0 suffix name) as [idx |] eqn:Hidx.
  - specialize (Hend idx eq_refl).
    assert (Hle : (String.length suffix <=? String.length name)%nat = true)
      by (apply Nat.leb_le; lia).
    rewrite Hle.
    replace (String.length name - String.length suffix)%nat with idx by lia.
    rewrite (index_correct1 _ _ _ _ Hidx), String.eqb_refl. reflexivity.
  - destruct (String.length suffix <=? String.length name)%nat; cbn [andb];
      [| reflexivity].
    destruct (String.eqb_spec
                (substring (String.length name - String.length suffix)
                           (String.length suffix) name) suffix) as [Heq | _];
      [| reflexivity].
    exfalso.
    apply (index_correct3 0 (String.length name - String.length suffix) _ _ Hidx);
      [discriminate | lia | exact Heq].
Qed.

(** C2, at the input where the code leaves it.  For the challenge name of
    the host [example.com.www.example.com] in the zone [example.com], the
    zone suffix removed from the end leaves
    [_acme-challenge.example.com.www]; [extractRecordName] cuts at the first
    occurrence of the suffix and gives [_acme-challenge]. *)
Theorem extractRecordName_cuts_at_first_occurrence :
  spec.leaf_name "_acme-challenge.example.com.www.example.com." "example.com"
    = "_acme-challenge.example.com.www"
  /\ qcloud.extractRecordName
       "_acme-challenge.example.com.www.example.com." "example.com"
    = "_acme-challenge"
  /\ strings.Index "_acme-challenge.example.com.www.example.com" ".example.com"
    = Some 15%nat.
Proof.
  split; [reflexivity |]. split; reflexivity.
Qed.

(** The usual case: the name is a label above the zone. *)
Example extractRecordName_example :
  qcloud.extractRecordName "_acme-challenge.www.example.com." "example.com"
  = "_acme-challenge.www".
Proof. reflexivity. Qed.

(** ** The hosted zone *)

Lemma last_cons_default {A : Type} (a d : A) (l : list A) :
  last (a :: l) d = last l a.
Proof.
  revert a d. induction l as [| b l IH]; intros a d; [reflexivity |].
  change (last (a :: b :: l) d) with (last (b :: l) d).
  rewrite (IH b d), (IH b a). reflexivity.
Qed.

(** The loop of [getHostedZone] keeps the last zone of the wanted name. *)
Lemma pickZone_last (zones : list cns.Domain) (name : string) :
  qcloud.pickZone zones name
  = last (filter (fun zone => String.eqb (cns.DomainName zone) name) zones)
         cns.zeroDomain.
Proof.
  unfold qcloud.pickZone. generalize cns.zeroDomain.
  induction zones as [| zone zones IH]; intros start; simpl; [reflexivity |].
  rewrite IH. destruct (String.eqb (cns.DomainName zone) name); [| reflexivity].
  now rewrite last_cons_default.
Qed.

Section HostedZone.
Import qcloud.
Context {R : Remote}.
Variable GetRecord : string -> string -> string * string.
Variables (d : DNSProvider) (domain : string).
Variables (zones : list cns.Domain) (authZone : string) (w w1 w2 : World R).
Hypothesis listed : doDomainList R w = (OK zones, w1).
Hypothesis resolved : doFindZoneByFqdn R (dns01.ToFqdn domain) w1 = (OK authZone, w2).

Let hostedZone : cns.Domain :=
  last (filter (fun zone => String.eqb (cns.DomainName zone) (dns01.UnFqdn authZone))
               zones)
       cns.zeroDomain.

Lemma run_getHostedZone :
  run (getHostedZone d domain) w
  = mkRun
      (Returned
         (if cns.DomainId hostedZone =? 0
          then Err (zone_not_found authZone domain)
          else OK (strings.Sprintf_v (cns.DomainId hostedZone),
                   cns.DomainName hostedZone)))
      [EDomainList (OK zones); EFindZoneByFqdn (dns01.ToFqdn domain) (OK authZone)]
      w2.
Proof.
  unfold getHostedZone; simpl. rewrite listed; simpl. rewrite resolved; simpl.
  rewrite pickZone_last. fold hostedZone.
  destruct (cns.DomainId hostedZone =? 0); reflexivity.
Qed.

Lemma run_presentDomain_no_zone (keyAuth : string) :
  cns.DomainId hostedZone = 0 ->
  run (presentDomain GetRecord d domain keyAuth) w
  = mkRun (Returned (Some (zone_not_found authZone domain)))
      [EDomainList (OK zones); EFindZoneByFqdn (dns01.ToFqdn domain) (OK authZone)]
      w2.
Proof.
  intros Hid. unfold presentDomain.
  destruct (GetRecord domain keyAuth) as [fqdn value].
  rewrite run_bind, run_getHostedZone, Hid. reflexivity.
Qed.

Lemma run_cleanUpDomain_no_zone (keyAuth : string) :
  cns.DomainId hostedZone = 0 ->
  run (cleanUpDomain GetRecord d domain keyAuth) w
  = mkRun
      (Returned
         (Some (Errorf_w "CleanUp(): findTxtRecords err: "
                  (zone_not_found authZone domain))))
      [EDomainList (OK zones); EFindZoneByFqdn (dns01.ToFqdn domain) (OK authZone)]
      w2.
Proof.
  intros Hid. unfold cleanUpDomain, findTxtRecords.
  destruct (GetRecord domain keyAuth) as [fqdn value].
  rewrite !run_bind, run_getHostedZone, Hid. reflexivity.
Qed.

End HostedZone.

(** A zone picked with an id other than zero is one of the zones listed and
    has the wanted name. *)
Lemma pickZone_matched (zones : list cns.Domain) (name : string) :
  cns.DomainId (qcloud.pickZone zones name) <> 0 ->
  In (qcloud.pickZone zones name) zones
  /\ cns.DomainName (qcloud.pickZone zones name) = name.
Proof.
  rewrite pickZone_last.
  set (matching := filter (fun zone => String.eqb (cns.DomainName zone) name) zones).
  intros Hid.
  assert (Hin : In (last matching cns.zeroDomain) matching).
  { destruct matching as [| z rest] eqn:Hm; [now elim Hid |].
    destruct (exists_last (l := z :: rest)) as [init [final Hsplit]]; [discriminate |].
    rewrite Hsplit, last_last. apply in_or_app; right; now left. }
  unfold matching in Hin. apply filter_In in Hin. destruct Hin as [Hin Hname].
  split; [exact Hin | now apply String.eqb_eq].
Qed.

(** C10.  Of the zones listed whose name is the authoritative zone without
    its trailing dot, [getHostedZone] selects the last one.  When the zone
    selected has the id 0, which is also what no match at all leaves, the
    result is the zone-not-found error, and [Present] and [CleanUp] return
    after the two lookups: no record is listed, created or deleted. *)
Theorem getHostedZone_selects_last_match :
  forall (R : Remote) (GetRecord : string -> string -> string * string)
         (d : qcloud.DNSProvider) (given domain token keyAuth : string)
         (zones : list cns.Domain) (authZone : string) (w w1 w2 : World R),
    qcloud.wildcardFixup given = inr domain ->
    doDomainList R w = (OK zones, w1) ->
    doFindZoneByFqdn R (dns01.ToFqdn domain) w1 = (OK authZone, w2) ->
    let matching :=
      filter (fun zone => String.eqb (cns.DomainName zone) (dns01.UnFqdn authZone))
             zones in
    let hostedZone := last matching cns.zeroDomain in
    let lookups :=
      [EDomainList (OK zones); EFindZoneByFqdn (dns01.ToFqdn domain) (OK authZone)] in
    qcloud.pickZone zones (dns01.UnFqdn authZone) = hostedZone
    /\ (matching = [] -> cns.DomainId hostedZone = 0)
    /\ (cns.DomainId hostedZone <> 0 ->
        result (run (qcloud.getHostedZone d domain) w)
        = Returned (OK (strings.Sprintf_v (cns.DomainId hostedZone),
                        cns.DomainName hostedZone)))
    /\ (cns.DomainId hostedZone = 0 ->
        result (run (qcloud.getHostedZone d domain) w)
          = Returned (Err (qcloud.zone_not_found authZone domain))
        /\ run (qcloud.Present GetRecord d given token keyAuth) w
          = mkRun (Returned (Some (qcloud.zone_not_found authZone domain))) lookups w2
        /\ run (qcloud.CleanUp GetRecord d given token keyAuth) w
          = mkRun
              (Returned
                 (Some (Errorf_w "CleanUp(): findTxtRecords err: "
                          (qcloud.zone_not_found authZone domain))))
              lookups w2).
Proof.
  intros R GetRecord d given domain token keyAuth zones authZone w w1 w2
         Hfix Hlist Hres matching hostedZone lookups.
  split; [apply pickZone_last |].
  split; [intros Hnone; subst hostedZone; rewrite Hnone; reflexivity |].
  pose proof (run_getHostedZone d domain zones authZone w w1 w2 Hlist Hres) as Hrun.
  fold matching hostedZone in Hrun.
  split.
  - intros Hid. rewrite Hrun; simpl.
    destruct (Z.eqb_spec (cns.DomainId hostedZone) 0); [contradiction | reflexivity].
  - intros Hid. split; [rewrite Hrun, Hid; reflexivity |].
    unfold qcloud.Present, qcloud.CleanUp. rewrite Hfix. split.
    + now apply (run_presentDomain_no_zone GetRecord d domain zones authZone w w1 w2).
    + now apply (run_cleanUpDomain_no_zone GetRecord d domain zones authZone w w1 w2).
Qed.

Lemma getHostedZone_selects_last_match_witness :
  let zones := [cns.mkDomain 5 "example.com"; cns.mkDomain 0 "example.com"] in
  let remote := account.remote zones (OK "example.com.") [] in
  qcloud.pickZone zones "example.com" = cns.mkDomain 0 "example.com"
  /\ @run remote _
       (qcloud.Present account.GetRecord account.provider "*.example.com" "token" "") []
     = @mkRun remote _
         (Returned (Some (qcloud.zone_not_found "example.com." "example.com")))
         [EDomainList (OK zones); EFindZoneByFqdn "example.com." (OK "example.com.")]
         [].
Proof.
  intros zones remote.
  destruct (getHostedZone_selects_last_match remote account.GetRecord account.provider
              "*.example.com" "example.com" "token" "" zones "example.com."
              [] [] [] eq_refl eq_refl eq_refl) as (Hpick & _ & _ & Hzero).
  split; [exact Hpick |].
  destruct (Hzero eq_refl) as (_ & Hpresent & _). exact Hpresent.
Defined.

(** ** Reading the shapes *)

Lemma hostedZone_found_inv (domain : string) (tr : list event) (id zoneName : string) :
  shape.hostedZone domain tr (OK (id, zoneName)) ->
  exists zones authZone,
    tr = [EDomainList (OK zones); EFindZoneByFqdn (dns01.ToFqdn domain) (OK authZone)]
    /\ cns.DomainId (qcloud.pickZone zones (dns01.UnFqdn authZone)) <> 0
    /\ zoneName = cns.DomainName (qcloud.pickZone zones (dns01.UnFqdn authZone)).
Proof.
  intros H. inversion H; subst. eauto.
Qed.

Lemma hostedZone_failed_inv (domain : string) (tr : list event) (e : error) :
  shape.hostedZone domain tr (Err e) ->
  (exists e0,
      tr = [EDomainList (Err e0)]
      /\ e = Errorf_v "qcloud cns: DomainList() API call failed: " e0)
  \/ (exists zones ans,
         tr = [EDomainList (OK zones); EFindZoneByFqdn (dns01.ToFqdn domain) ans]).
Proof.
  intros H. inversion H; subst; eauto.
Qed.

(** ** Present *)



Example Present_example :
  let remote := account.remote [cns.mkDomain 1 "example.com"] (OK "example.com.") [] in
  @run remote _
    (qcloud.Present account.GetRecord account.provider "*.www.example.com" "token" "") []
  = @mkRun remote _ (Returned None)
      [EDomainList (OK [cns.mkDomain 1 "example.com"]);
       EFindZoneByFqdn "www.example.com." (OK "example.com.");
       ERecordCreate "example.com"
         (cns.mkRecord 0 600 "47DEQpj8HBSa-_TImW-5JCeuQeRkm5NMpJWZG3hSuFU"
            "_acme-challenge.www" qcloud.default_line "TXT")
         (OK 1)]
      [cns.mkRecord 1 600 "47DEQpj8HBSa-_TImW-5JCeuQeRkm5NMpJWZG3hSuFU"
         "_acme-challenge.www" qcloud.default_line "TXT"].
Proof. reflexivity. Qed.

(** ** CleanUp *)


(** A run of the delete loop logs deletions only, in the zone given. *)
Lemma deletes_events zoneName records tr out :
  shape.deletes zoneName records tr out ->
  forall ev, In ev tr -> exists id ans, ev = ERecordDelete zoneName id ans.
Proof.
  induction 1 as [| rec rest e | rec rest tr out _ IH]; intros ev Hin.
  - destruct Hin.
  - destruct Hin as [<- | []]. eauto.
  - destruct Hin as [<- | Hin]; [eauto | now apply IH].
Qed.

(** The delete loop stops at the first deletion that fails and returns its
    error wrapped; with no failure it deletes every record and returns nil. *)
Lemma deletes_first_failure zoneName records tr out :
  shape.deletes zoneName records tr out ->
  match first_failure tr with
  | Some (e, post) =>
      post = [] /\ out = Some (Errorf_w "CleanUp(): qcloud cns: RecordDelete err: " e)
  | None =>
      out = None
      /\ tr = map (fun rec => ERecordDelete zoneName (cns.Id rec) None) records
  end.
Proof.
  induction 1 as [| rec rest e | rec rest tr out _ IH]; simpl; auto.
  destruct (first_failure tr) as [[e post] |]; [exact IH |].
  destruct IH as [-> ->]. auto.
Qed.

(** The runs of [cleanUpDomain], spelled out. *)
Lemma cleanUp_forms (domain fqdn : string) (tr : list event) (out : option error) :
  shape.cleanUp domain fqdn tr out ->
  (exists e,
      tr = [EDomainList (Err e)]
      /\ out = Some (Errorf_w "CleanUp(): findTxtRecords err: "
                       (Errorf_v "qcloud cns: DomainList() API call failed: " e)))
  \/ (exists zones ans err,
         tr = [EDomainList (OK zones); EFindZoneByFqdn (dns01.ToFqdn domain) ans]
         /\ out = Some err)
  \/ (exists zones authZone zoneName e,
         tr = [EDomainList (OK zones);
               EFindZoneByFqdn (dns01.ToFqdn domain) (OK authZone);
               ERecordList zoneName (Err e)]
         /\ out = Some (Errorf_w "CleanUp(): findTxtRecords err: "
                          (Errorf_v "qcloud cns: RecordList() API call has failed: " e)))
  \/ (exists zones authZone zoneName listing e,
         tr = [EDomainList (OK zones);
               EFindZoneByFqdn (dns01.ToFqdn domain) (OK authZone);
               ERecordList zoneName (OK listing);
               EDomainList (Err e)]
         /\ out = Some (Errorf_w "CleanUp(): getHostedZone err: "
                          (Errorf_v "qcloud cns: DomainList() API call failed: " e)))
  \/ (exists zones authZone zoneName listing zones' ans err,
         tr = [EDomainList (OK zones);
               EFindZoneByFqdn (dns01.ToFqdn domain) (OK authZone);
               ERecordList zoneName (OK listing);
               EDomainList (OK zones');
               EFindZoneByFqdn (dns01.ToFqdn domain) ans]
         /\ out = Some err)
  \/ (exists zones authZone zoneName listing zones' authZone' zoneName' dels,
         tr = ([EDomainList (OK zones);
               EFindZoneByFqdn (dns01.ToFqdn domain) (OK authZone);
               ERecordList zoneName (OK listing);
               EDomainList (OK zones');
               EFindZoneByFqdn (dns01.ToFqdn domain) (OK authZone')] ++ dels)%list
         /\ zoneName = cns.DomainName (qcloud.pickZone zones (dns01.UnFqdn authZone))
         /\ cns.DomainId (qcloud.pickZone zones (dns01.UnFqdn authZone)) <> 0
         /\ zoneName' = cns.DomainName (qcloud.pickZone zones' (dns01.UnFqdn authZone'))
         /\ shape.deletes zoneName'
              (filter
                 (fun record =>
                    String.eqb (cns.Name record) (qcloud.extractRecordName fqdn zoneName))
                 listing)
              dels out).
Proof.
  intros H.
  inversion H as [tr1 e Htxt | tr1 records tr2 e Htxt Hz | tr1 records tr2 id zn tr3 o Htxt Hz Hd];
    subst.
  - inversion Htxt as [tr0 e0 Hz0 | tr0 id0 zn0 e0 Hz0 |]; subst.
    + destruct (hostedZone_failed_inv _ _ _ Hz0)
        as [(e1 & -> & ->) | (zones & ans & ->)].
      * left. eauto.
      * right; left. eauto.
    + destruct (hostedZone_found_inv _ _ _ _ Hz0) as (zones & authZone & -> & _ & _).
      right; right; left. simpl. eauto 6.
  - inversion Htxt as [| | tr0 id0 zn0 listing Hz0]; subst.
    destruct (hostedZone_found_inv _ _ _ _ Hz0) as (zones & authZone & -> & _ & _).
    destruct (hostedZone_failed_inv _ _ _ Hz)
      as [(e1 & -> & ->) | (zones' & ans & ->)].
    + right; right; right; left. simpl. eauto 8.
    + right; right; right; right; left. simpl. eauto 10.
  - inversion Htxt as [| | tr0 id0 zn0 listing Hz0]; subst.
    destruct (hostedZone_found_inv _ _ _ _ Hz0) as (zones & authZone & -> & Hid & Hzn).
    destruct (hostedZone_found_inv _ _ _ _ Hz) as (zones' & authZone' & -> & _ & Hzn').
    right; right; right; right; right.
    exists zones, authZone, zn0, listing, zones', authZone', zn, tr3.
    simpl. subst. repeat split; auto.
Qed.


(** The runs of [presentDomain], spelled out. *)
Lemma present_forms d (domain fqdn value : string) (tr : list event) (out : option error) :
  shape.present d domain fqdn value tr out ->
  (exists e,
      tr = [EDomainList (Err e)]
      /\ out = Some (Errorf_v "qcloud cns: DomainList() API call failed: " e))
  \/ (exists zones ans err,
         tr = [EDomainList (OK zones); EFindZoneByFqdn (dns01.ToFqdn domain) ans]
         /\ out = Some err)
  \/ (exists zones authZone zoneName ans,
         tr = [EDomainList (OK zones);
               EFindZoneByFqdn (dns01.ToFqdn domain) (OK authZone);
               ERecordCreate zoneName
                 (qcloud.newTxtRecord zoneName fqdn value (qcloud.TTL (qcloud.config d)))
                 ans]
         /\ zoneName = cns.DomainName (qcloud.pickZone zones (dns01.UnFqdn authZone))
         /\ cns.DomainId (qcloud.pickZone zones (dns01.UnFqdn authZone)) <> 0
         /\ out = match ans with
                  | OK _ => None
                  | Err e =>
                      Some (Errorf_v "qcloud cns: RecordCreate() API call failed: " e)
                  end).
Proof.
  intros H.
  inversion H as [tr0 e Hz | tr0 id zn e Hz | tr0 id zn n Hz]; subst.
  - destruct (hostedZone_failed_inv _ _ _ Hz) as [(e1 & -> & ->) | (zones & ans & ->)].
    + left. eauto.
    + right; left. eauto.
  - destruct (hostedZone_found_inv _ _ _ _ Hz) as (zones & authZone & -> & Hid & Hzn).
    right; right. exists zones, authZone, zn, (Err e). simpl. auto.
  - destruct (hostedZone_found_inv _ _ _ _ Hz) as (zones & authZone & -> & Hid & Hzn).
    right; right. exists zones, authZone, zn, (OK n). simpl. auto.
Qed.

(** The traces of [Present] and [CleanUp], whatever the domain given. *)
Lemma Present_trace {R : Remote} GetRecord d given token keyAuth (w : World R) :
  (trace (run (qcloud.Present GetRecord d given token keyAuth) w) = []
   /\ exists e,
       result (run (qcloud.Present GetRecord d given token keyAuth) w) = Panicked e)
  \/ (exists domain out,
         qcloud.wildcardFixup given = inr domain
         /\ result (run (qcloud.Present GetRecord d given token keyAuth) w) = Returned out
         /\ shape.present d domain
              (fst (GetRecord domain keyAuth)) (snd (GetRecord domain keyAuth))
              (trace (run (qcloud.Present GetRecord d given token keyAuth) w)) out).
Proof.
  unfold qcloud.Present.
  destruct (qcloud.wildcardFixup given) as [e | domain]; [left; simpl; eauto |].
  right. destruct (presentDomain_shape GetRecord d domain keyAuth w) as [out [Hres Hs]].
  eauto.
Qed.

Lemma CleanUp_trace {R : Remote} GetRecord d given token keyAuth (w : World R) :
  (trace (run (qcloud.CleanUp GetRecord d given token keyAuth) w) = []
   /\ exists e,
       result (run (qcloud.CleanUp GetRecord d given token keyAuth) w) = Panicked e)
  \/ (exists domain out,
         qcloud.wildcardFixup given = inr domain
         /\ result (run (qcloud.CleanUp GetRecord d given token keyAuth) w) = Returned out
         /\ shape.cleanUp domain (fst (GetRecord domain keyAuth))
              (trace (run (qcloud.CleanUp GetRecord d given token keyAuth) w)) out).
Proof.
  unfold qcloud.CleanUp.
  destruct (qcloud.wildcardFixup given) as [e | domain]; [left; simpl; eauto |].
  right. destruct (cleanUpDomain_shape GetRecord d domain keyAuth w) as [out [Hres Hs]].
  eauto.
Qed.

(** ** The order of the calls *)


Ltac open_forms :=
  repeat match goal with
         | H : _ \/ _ |- _ => destruct H
         | H : exists _, _ |- _ => destruct H
         | H : _ /\ _ |- _ => destruct H
         end.


Section Order.
Import qcloud.
Variables (d : DNSProvider) (domain fqdn value : string).








End Order.


(** ** Failures of the vendor *)

Section Failures.
Import qcloud.
Variables (d : DNSProvider) (domain fqdn value : string).





End Failures.



(** ** What CleanUp deletes *)

Lemma deleted_ids_deletes zoneName (records : list cns.Record) :
  deleted_ids (map (fun rec => ERecordDelete zoneName (cns.Id rec) None) records)
  = map cns.Id records.
Proof.
  induction records as [| rec rest IH]; simpl; [reflexivity | now rewrite IH].
Qed.

(** X15.  A successful [CleanUp] has asked the vendor to delete every record of the
    listing whose name is the record name extracted, each once and by its
    id, and nothing else.  The name alone selects: the listing's other
    fields, the type among them, are not read. *)
Lemma CleanUp_deletes_by_name :
  forall (R : Remote) (GetRecord : string -> string -> string * string)
         (d : qcloud.DNSProvider) (given token keyAuth : string) (w : World R),
    result (run (qcloud.CleanUp GetRecord d given token keyAuth) w) = Returned None ->
    exists domain zones authZone listing,
      qcloud.wildcardFixup given = inr domain
      /\ In (ERecordList (cns.DomainName (qcloud.pickZone zones (dns01.UnFqdn authZone)))
               (OK listing))
            (trace (run (qcloud.CleanUp GetRecord d given token keyAuth) w))
      /\ deleted_ids (trace (run (qcloud.CleanUp GetRecord d given token keyAuth) w))
         = map cns.Id
             (filter
                (fun record =>
                   String.eqb (cns.Name record)
                     (qcloud.extractRecordName (fst (GetRecord domain keyAuth))
                        (cns.DomainName
                           (qcloud.pickZone zones (dns01.UnFqdn authZone)))))
                listing).
Proof.
  intros R GetRecord d given token keyAuth w Hnone.
  destruct (CleanUp_trace GetRecord d given token keyAuth w)
    as [[_ [e Hpanic]] | (domain & out & Hfix & Hres & Hs)]; [congruence |].
  assert (out = None) by congruence. subst out.
  apply cleanUp_forms in Hs.
  destruct Hs as [(e & _ & ?) | [(zs & a & err & _ & ?) | [(zs & az & zn & e & _ & ?)
    | [(zs & az & zn & l & e & _ & ?) | [(zs & az & zn & l & zs' & a & err & _ & ?)
    | (zs & az & zn & l & zs' & az' & zn' & dels & Htr & -> & _ & _ & Hd)]]]]];
    try discriminate.
  exists domain, zs, az, l. split; [exact Hfix |].
  pose proof (deletes_first_failure _ _ _ _ Hd) as Hdel.
  destruct (first_failure dels) as [[e post] |]; [destruct Hdel; discriminate |].
  destruct Hdel as [_ ->]. rewrite Htr. split.
  - simpl. auto.
  - simpl. apply deleted_ids_deletes.
Qed.

(** C1, at the input where the code leaves it.  The zone holds a CNAME
    record named [_acme-challenge] and a TXT record of another name, and no
    TXT record named [_acme-challenge].  [CleanUp] asks the vendor to delete
    the CNAME record, and the account is left without it. *)
Theorem CleanUp_deletes_record_of_other_type :
  let remote := account.remote [cns.mkDomain 1 "example.com"] (OK "example.com.") [] in
  let delegation :=
    cns.mkRecord 7 600 "validation.example.net." "_acme-challenge"
      qcloud.default_line "CNAME" in
  let r :=
    @run remote _
      (qcloud.CleanUp account.GetRecord account.provider "example.com" "token" "")
      [delegation; account.txt 9 "www" "v=spf1 -all"] in
  cns.Type_ delegation <> "TXT"
  /\ result r = Returned None
  /\ trace r
     = [EDomainList (OK [cns.mkDomain 1 "example.com"]);
        EFindZoneByFqdn "example.com." (OK "example.com.");
        ERecordList "example.com" (OK [delegation; account.txt 9 "www" "v=spf1 -all"]);
        EDomainList (OK [cns.mkDomain 1 "example.com"]);
        EFindZoneByFqdn "example.com." (OK "example.com.");
        ERecordDelete "example.com" 7 None]
  /\ final r = [account.txt 9 "www" "v=spf1 -all"].
Proof.
  cbv zeta. split; [discriminate |]. repeat split.
Qed.


(** ** More on the record name *)

Lemma prefix_nil (s : string) : prefix "" s = true.
Proof. destruct s; reflexivity. Qed.

Lemma prefix_cons (a b : ascii) (s1 s2 : string) :
  prefix (String a s1) (String b s2) = (Ascii.eqb a b && prefix s1 s2)%bool.
Proof.
  cbn [prefix]. destruct (ascii_dec a b) as [-> | Hab].
  - now rewrite Ascii.eqb_refl.
  - destruct (Ascii.eqb_spec a b); [contradiction | reflexivity].
Qed.

Lemma prefix_same (s : string) : prefix s s = true.
Proof.
  induction s as [| a s IH]; [reflexivity |].
  now rewrite prefix_cons, Ascii.eqb_refl.
Qed.

Lemma prefix_through (s1 s2 s3 : string) :
  prefix s1 s2 = true -> prefix s2 s3 = true -> prefix s1 s3 = true.
Proof.
  revert s2 s3. induction s1 as [| a s1 IH]; intros s2 s3 H12 H23.
  - apply prefix_nil.
  - destruct s2 as [| b s2]; [discriminate |].
    destruct s3 as [| c s3]; [discriminate |].
    rewrite prefix_cons in *.
    apply andb_true_iff in H12. destruct H12 as [Hab H12].
    apply andb_true_iff in H23. destruct H23 as [Hbc H23].
    apply Ascii.eqb_eq in Hab. apply Ascii.eqb_eq in Hbc. subst.
    rewrite Ascii.eqb_refl. simpl. now apply (IH s2).
Qed.

Lemma prefix_append (s rest : string) : prefix s (s ++ rest) = true.
Proof.
  induction s as [| a s IH]; cbn [append]; [apply prefix_nil |].
  now rewrite prefix_cons, Ascii.eqb_refl.
Qed.


(** A slice [s[:hi]] is a prefix of [s]. *)
Lemma slice_to_prefix (hi : nat) (s : string) :
  prefix (strings.slice_to hi s) s = true.
Proof.
  unfold strings.slice_to. revert s.
  induction hi as [| hi IH]; intros s.
  - destruct s; apply prefix_nil.
  - destruct s as [| a s]; [reflexivity |].
    cbn [substring]. rewrite prefix_cons, Ascii.eqb_refl. apply IH.
Qed.

(** The two slices at a position make the string again. *)
Lemma slice_to_from (s : string) (n m : nat) :
  prefix (substring 0 n s ++ substring n m s) s = true.
Proof.
  revert s. induction n as [| n IH]; intros s.
  - assert (H0 : substring 0 0 s = "") by (destruct s; reflexivity).
    rewrite H0. simpl. apply (slice_to_prefix m s).
  - destruct s as [| a s]; [destruct m; reflexivity |].
    cbn [substring append]. rewrite prefix_cons, Ascii.eqb_refl. apply IH.
Qed.


(** The first occurrence of a non-empty [sub] in [s], unfolded one step. *)
Lemma index_step (sub : string) (b : ascii) (s : string) :
  index 0 sub (String b s)
  = if prefix sub (String b s) then Some 0%nat
    else match index 0 sub s with
         | Some n => Some (S n)
         | None => None
         end.
Proof. reflexivity. Qed.

(** Before the first occurrence of [sub] there is no occurrence of [sub]. *)
Lemma no_occurrence_before_first (sub s : string) :
  sub <> "" ->
  forall idx, index 0 sub s = Some idx -> index 0 sub (substring 0 idx s) = None.
Proof.
  intros Hsub. induction s as [| b s IH]; intros idx Hidx.
  - destruct sub as [| a sub]; [contradiction |]. simpl in Hidx. discriminate.
  - rewrite index_step in Hidx.
    destruct (prefix sub (String b s)) eqn:Hpre.
    + injection Hidx as <-. destruct sub as [| a sub]; [contradiction |]. reflexivity.
    + destruct (index 0 sub s) as [n |] eqn:Hn; [| discriminate].
      injection Hidx as <-. cbn [substring]. rewrite index_step.
      destruct (prefix sub (String b (substring 0 n s))) eqn:Hpre'.
      * assert (Hcut : prefix (String b (substring 0 n s)) (String b s) = true).
        { rewrite prefix_cons, Ascii.eqb_refl. apply (slice_to_prefix n s). }
        rewrite (prefix_through _ _ _ Hpre' Hcut) in Hpre. discriminate.
      * now rewrite (IH n eq_refl).
Qed.

Lemma append_assoc_string (a b c : string) : (a ++ b) ++ c = a ++ (b ++ c).
Proof.
  induction a as [| x a IH]; cbn [append]; [reflexivity | now rewrite IH].
Qed.

Lemma length_append_string (a b : string) :
  String.length (a ++ b) = (String.length a + String.length b)%nat.
Proof.
  induction a as [| x a IH]; cbn [append String.length]; [reflexivity | now rewrite IH].
Qed.

Lemma slice_to_append (a b : string) :
  strings.slice_to (String.length a) (a ++ b) = a.
Proof.
  unfold strings.slice_to.
  induction a as [| x a IH]; cbn [append String.length].
  - destruct b; reflexivity.
  - cbn [substring]. now rewrite IH.
Qed.

Lemma last_is_dot_append (s : string) : dns01.last_is_dot (s ++ ".") = true.
Proof.
  induction s as [| x s IH]; [reflexivity |].
  cbn [append]. destruct s as [| y s]; [reflexivity |].
  cbn [append] in *. exact IH.
Qed.

(** [UnFqdn] takes the trailing dot off again. *)
Lemma UnFqdn_dot (s : string) : dns01.UnFqdn (s ++ ".") = s.
Proof.
  unfold dns01.UnFqdn. rewrite last_is_dot_append, length_append_string.
  cbn [String.length]. replace (String.length s + 1 - 1)%nat with (String.length s) by lia.
  apply slice_to_append.
Qed.

(** In a label without a dot followed by a dot and more, the dot after the
    label is the first place where a string that begins with a dot occurs. *)
Lemma index_after_label (label rest : string) :
  strings.Index label "." = None ->
  index 0 (String "." rest) (label ++ String "." rest) = Some (String.length label).
Proof.
  unfold strings.Index.
  induction label as [| c label IH]; intros Hdot.
  - cbn [append String.length]. rewrite index_step, prefix_same. reflexivity.
  - rewrite index_step in Hdot. rewrite prefix_cons, prefix_nil in Hdot.
    destruct (Ascii.eqb_spec "." c) as [Hc | Hc]; [discriminate |].
    cbn [andb] in Hdot.
    destruct (index 0 "." label) as [n |] eqn:Hn; [discriminate |].
    cbn [append String.length]. rewrite index_step, prefix_cons.
    destruct (Ascii.eqb_spec "." c) as [Hc' | _]; [contradiction |].
    cbn [andb]. now rewrite (IH eq_refl).
Qed.


(** X2.  The name extracted holds no occurrence of a dot followed by the
    zone name.  It is either the whole name without its trailing dot, when
    that holds no such occurrence, or what stands before one: followed by
    the dot and the zone name it is a prefix of the name. *)
Theorem extractRecordName_stops_before_zone :
  forall fqdn zone : string,
    strings.Index (qcloud.extractRecordName fqdn zone) ("." ++ zone) = None
    /\ (strings.Index (dns01.UnFqdn fqdn) ("." ++ zone) = None
        /\ qcloud.extractRecordName fqdn zone = dns01.UnFqdn fqdn
        \/ prefix (qcloud.extractRecordName fqdn zone ++ "." ++ zone) (dns01.UnFqdn fqdn)
           = true).
Proof.
  intros fqdn zone. unfold qcloud.extractRecordName, strings.Index.
  set (name := dns01.UnFqdn fqdn). set (suffix := "." ++ zone).
  destruct (index 0 suffix name) as [idx |] eqn:Hidx.
  - split.
    + apply no_occurrence_before_first; [discriminate | exact Hidx].
    + right. unfold strings.slice_to.
      rewrite <- (index_correct1 _ _ _ _ Hidx) at 1.
      apply slice_to_from.
  - rewrite Hidx. split; [reflexivity | left; split; reflexivity].
Qed.

(** X3.  For a label without a dot, the FQDN made of the label, a dot, the
    zone name and the trailing dot gives the label back. *)
Theorem extractRecordName_of_label :
  forall label zone : string,
    strings.Index label "." = None ->
    qcloud.extractRecordName (label ++ "." ++ zone ++ ".") zone = label.
Proof.
  intros label zone Hdot. unfold qcloud.extractRecordName.
  replace (label ++ "." ++ zone ++ ".") with ((label ++ "." ++ zone) ++ ".")
    by (rewrite append_assoc_string; reflexivity).
  rewrite UnFqdn_dot. unfold strings.Index.
  change ("." ++ zone) with (String "." zone).
  rewrite (index_after_label label zone Hdot).
  apply slice_to_append.
Qed.

Lemma extractRecordName_of_label_witness :
  strings.Index "_acme-challenge" "." = None
  /\ qcloud.extractRecordName ("_acme-challenge" ++ "." ++ "example.com" ++ ".")
       "example.com"
     = "_acme-challenge".
Proof.
  split; [reflexivity |].
  apply (extractRecordName_of_label "_acme-challenge" "example.com"). reflexivity.
Defined.

(** ** More on construction *)

(** X4.  [NewDNSProviderConfig] builds a provider exactly for a
    configuration that is not nil and whose [SecretKey] is not empty; the
    provider holds that configuration and a client made of its two secrets.
    Every other input is refused with an error. *)
Theorem NewDNSProviderConfig_accepts_iff :
  forall (c : option qcloud.Config) (d : qcloud.DNSProvider),
    (qcloud.NewDNSProviderConfig c = OK d
     <-> exists cfg,
           c = Some cfg
           /\ qcloud.SecretKey cfg <> ""
           /\ d = qcloud.mkDNSProvider cfg
                    (cns.New (qcloud.SecretId cfg) (qcloud.SecretKey cfg)))
    /\ ((c = None \/ exists cfg, c = Some cfg /\ qcloud.SecretKey cfg = "")
        -> exists err, qcloud.NewDNSProviderConfig c = Err err).
Proof.
  intros c d. unfold qcloud.NewDNSProviderConfig. split; [split |].
  - destruct c as [cfg |]; [| discriminate].
    destruct (String.eqb_spec (qcloud.SecretKey cfg) "") as [Hk | Hk]; [discriminate |].
    intros H. injection H as <-. exists cfg. auto.
  - intros (cfg & -> & Hk & ->).
    destruct (String.eqb_spec (qcloud.SecretKey cfg) ""); [contradiction | reflexivity].
  - intros [-> | (cfg & -> & Hk)]; [eauto |]. rewrite Hk. simpl. eauto.
Qed.

Section FromEnvironment.
Import qcloud.

Variable env_Get : list string -> res (list (string * string)).
Variable env_GetOrDefaultInt : string -> Z -> Z.
Variable env_GetOrDefaultSecond : string -> Duration -> Duration.
Variable DefaultPropagationTimeout DefaultPollingInterval : Duration.

Let build : res DNSProvider :=
  NewDNSProvider env_Get env_GetOrDefaultInt env_GetOrDefaultSecond
    DefaultPropagationTimeout DefaultPollingInterval.

Lemma NewDNSProvider_config (d : DNSProvider) :
  build = OK d ->
  exists values,
    env_Get ["QCLOUD_SECRET_ID"; "QCLOUD_SECRET_KEY"] = OK values
    /\ map_get values "QCLOUD_SECRET_KEY" <> ""
    /\ d = mkDNSProvider
             (with_secrets
                (NewDefaultConfig env_GetOrDefaultInt env_GetOrDefaultSecond
                   DefaultPropagationTimeout DefaultPollingInterval)
                (map_get values "QCLOUD_SECRET_ID")
                (map_get values "QCLOUD_SECRET_KEY"))
             (cns.New (map_get values "QCLOUD_SECRET_ID")
                      (map_get values "QCLOUD_SECRET_KEY")).
Proof.
  unfold build, NewDNSProvider.
  destruct (env_Get ["QCLOUD_SECRET_ID"; "QCLOUD_SECRET_KEY"]) as [values | err];
    [| discriminate].
  cbv zeta. unfold NewDNSProviderConfig. cbn [SecretKey SecretId with_secrets].
  destruct (String.eqb_spec (map_get values "QCLOUD_SECRET_KEY") "") as [Hk | Hk];
    [discriminate |].
  intros H. injection H as <-. exists values. auto.
Qed.

End FromEnvironment.

(** X5.  A provider built by [NewDNSProvider] holds what the environment
    gave: the two secrets read, of which the key is not empty, in its
    configuration and in its client, and the TTL and the two durations of the
    environment, or 600 and the framework's defaults. *)
Theorem NewDNSProvider_built :
  forall (env_Get : list string -> res (list (string * string)))
         (env_GetOrDefaultInt : string -> Z -> Z)
         (env_GetOrDefaultSecond : string -> qcloud.Duration -> qcloud.Duration)
         (DefaultPropagationTimeout DefaultPollingInterval : qcloud.Duration)
         (d : qcloud.DNSProvider),
    qcloud.NewDNSProvider env_Get env_GetOrDefaultInt env_GetOrDefaultSecond
      DefaultPropagationTimeout DefaultPollingInterval = OK d ->
    exists values,
      env_Get ["QCLOUD_SECRET_ID"; "QCLOUD_SECRET_KEY"] = OK values
      /\ qcloud.SecretId (qcloud.config d) = qcloud.map_get values "QCLOUD_SECRET_ID"
      /\ qcloud.SecretKey (qcloud.config d) = qcloud.map_get values "QCLOUD_SECRET_KEY"
      /\ qcloud.SecretKey (qcloud.config d) <> ""
      /\ qcloud.client d
         = cns.New (qcloud.map_get values "QCLOUD_SECRET_ID")
                   (qcloud.map_get values "QCLOUD_SECRET_KEY")
      /\ qcloud.TTL (qcloud.config d) = env_GetOrDefaultInt "QCLOUD_TTL" 600
      /\ qcloud.PropagationTimeout (qcloud.config d)
         = env_GetOrDefaultSecond "QCLOUD_PROPAGATION_TIMEOUT" DefaultPropagationTimeout
      /\ qcloud.PollingInterval (qcloud.config d)
         = env_GetOrDefaultSecond "QCLOUD_POLLING_INTERVAL" DefaultPollingInterval.
Proof.
  intros env_Get gi gs dpt dpi d Hd.
  destruct (NewDNSProvider_config env_Get gi gs dpt dpi d Hd) as (values & Hv & Hk & ->).
  exists values. cbn. repeat split; auto.
Qed.

Lemma NewDNSProvider_built_witness :
  exists values,
    sample.env_Get ["QCLOUD_SECRET_ID"; "QCLOUD_SECRET_KEY"] = OK values
    /\ qcloud.SecretId (qcloud.config account.provider)
       = qcloud.map_get values "QCLOUD_SECRET_ID"
    /\ qcloud.SecretKey (qcloud.config account.provider)
       = qcloud.map_get values "QCLOUD_SECRET_KEY"
    /\ qcloud.SecretKey (qcloud.config account.provider) <> ""
    /\ qcloud.client account.provider
       = cns.New (qcloud.map_get values "QCLOUD_SECRET_ID")
                 (qcloud.map_get values "QCLOUD_SECRET_KEY")
    /\ qcloud.TTL (qcloud.config account.provider)
       = (fun _ default => default) "QCLOUD_TTL" 600
    /\ qcloud.PropagationTimeout (qcloud.config account.provider)
       = sample.env_GetOrDefaultSecond "QCLOUD_PROPAGATION_TIMEOUT" (60 * qcloud.Second)
    /\ qcloud.PollingInterval (qcloud.config account.provider)
       = sample.env_GetOrDefaultSecond "QCLOUD_POLLING_INTERVAL" (2 * qcloud.Second).
Proof.
  apply (NewDNSProvider_built sample.env_Get (fun _ default => default)
           sample.env_GetOrDefaultSecond (60 * qcloud.Second) (2 * qcloud.Second)
           account.provider).
  reflexivity.
Defined.

(** ** More on the wildcard fixup *)

Lemma wildcardFixup_domain (given domain : string) :
  qcloud.wildcardFixup given = inr domain ->
  (2 <= String.length given)%nat /\ domain = spec.without_wildcard given.
Proof.
  intros Hfix.
  destruct (Nat.ltb_spec (String.length given) 2) as [Hlt | Hge].
  - rewrite (wildcardFixup_short given Hlt) in Hfix. discriminate.
  - rewrite (wildcardFixup_two_bytes given Hge) in Hfix.
    injection Hfix as <-. auto.
Qed.

Lemma substring_whole (s : string) : substring 0 (String.length s) s = s.
Proof.
  induction s as [| c s IH]; cbn [String.length substring]; [reflexivity | now rewrite IH].
Qed.

Lemma slice_from_wildcard (domain : string) :
  strings.slice_from 2 ("*." ++ domain) = domain.
Proof.
  unfold strings.slice_from. cbn [append String.length].
  replace (S (S (String.length domain)) - 2)%nat with (String.length domain) by lia.
  cbn [substring]. apply substring_whole.
Qed.

(** X6.  A wildcard domain is handled as its base domain: for a base domain
    of two bytes or more that is not itself a wildcard, [Present] and
    [CleanUp] of the domain with the wildcard prefix are [Present] and
    [CleanUp] of the base domain, call for call. *)
Theorem wildcard_domain_as_base_domain :
  forall (GetRecord : string -> string -> string * string)
         (d : qcloud.DNSProvider) (base token keyAuth : string),
    (2 <= String.length base)%nat ->
    prefix "*." base = false ->
    qcloud.Present GetRecord d ("*." ++ base) token keyAuth
      = qcloud.Present GetRecord d base token keyAuth
    /\ qcloud.CleanUp GetRecord d ("*." ++ base) token keyAuth
      = qcloud.CleanUp GetRecord d base token keyAuth.
Proof.
  intros GetRecord d base token keyAuth Hlen Hbase.
  assert (Hw : qcloud.wildcardFixup ("*." ++ base) = inr base).
  { rewrite wildcardFixup_two_bytes by (cbn [append String.length]; lia).
    unfold spec.without_wildcard.
    assert (Hp : prefix "*." ("*." ++ base) = true) by apply prefix_append.
    rewrite Hp, slice_from_wildcard. reflexivity. }
  assert (Hb : qcloud.wildcardFixup base = inr base).
  { rewrite (wildcardFixup_two_bytes base Hlen).
    unfold spec.without_wildcard. now rewrite Hbase. }
  unfold qcloud.Present, qcloud.CleanUp. rewrite Hw, Hb. split; reflexivity.
Qed.

Lemma wildcard_domain_as_base_domain_witness :
  qcloud.Present account.GetRecord account.provider ("*." ++ "example.com") "token" ""
    = qcloud.Present account.GetRecord account.provider "example.com" "token" ""
  /\ qcloud.CleanUp account.GetRecord account.provider ("*." ++ "example.com") "token" ""
    = qcloud.CleanUp account.GetRecord account.provider "example.com" "token" "".
Proof.
  apply (wildcard_domain_as_base_domain account.GetRecord account.provider
           "example.com" "token" "").
  - simpl. lia.
  - reflexivity.
Defined.

(** ** More on Present *)

Lemma Present_create_event {R : Remote} GetRecord d given token keyAuth (w : World R)
      zone r ans :
  In (ERecordCreate zone r ans)
     (trace (run (qcloud.Present GetRecord d given token keyAuth) w)) ->
  exists domain zones authZone,
    qcloud.wildcardFixup given = inr domain
    /\ trace (run (qcloud.Present GetRecord d given token keyAuth) w)
       = [EDomainList (OK zones);
          EFindZoneByFqdn (dns01.ToFqdn domain) (OK authZone);
          ERecordCreate zone r ans]
    /\ r = qcloud.newTxtRecord zone
             (fst (GetRecord domain keyAuth)) (snd (GetRecord domain keyAuth))
             (qcloud.TTL (qcloud.config d)).
Proof.
  intros Hin.
  destruct (Present_trace GetRecord d given token keyAuth w)
    as [[Hnil _] | (domain & out & Hfix & _ & Hs)].
  - rewrite Hnil in Hin. destruct Hin.
  - apply present_forms in Hs.
    destruct Hs as [(e & Htr & _) | [(zs & a & err & Htr & _)
                                    | (zs & az & zn & a & Htr & _)]];
      rewrite Htr in Hin |- *; simpl in Hin.
    + intuition discriminate.
    + intuition discriminate.
    + destruct Hin as [H | [H | [H | []]]]; try discriminate.
      injection H as <- <- <-. exists domain, zs, az. auto.
Qed.

(** X7.  Whenever [Present] calls [RecordCreate], whether the call then
    succeeds or fails, it is its last call, made after the two lookups for
    the domain without its wildcard prefix, and the record passed is a TXT
    record on the vendor's default line with no id, named by
    [extractRecordName] for the zone it is created in, holding the
    challenge value, with the configured TTL. *)
Theorem Present_create_call :
  forall (R : Remote) (GetRecord : string -> string -> string * string)
         (d : qcloud.DNSProvider) (given token keyAuth : string) (w : World R)
         (zone : string) (r : cns.Record) (ans : res Z),
    In (ERecordCreate zone r ans)
       (trace (run (qcloud.Present GetRecord d given token keyAuth) w)) ->
    let domain := spec.without_wildcard given in
    (exists zones authZone,
        trace (run (qcloud.Present GetRecord d given token keyAuth) w)
        = [EDomainList (OK zones);
           EFindZoneByFqdn (dns01.ToFqdn domain) (OK authZone);
           ERecordCreate zone r ans])
    /\ r = {| cns.Id := 0;
              cns.Ttl := qcloud.TTL (qcloud.config d);
              cns.Value := snd (GetRecord domain keyAuth);
              cns.Name := qcloud.extractRecordName (fst (GetRecord domain keyAuth)) zone;
              cns.Line := qcloud.default_line;
              cns.Type_ := "TXT" |}.
Proof.
  intros R GetRecord d given token keyAuth w zone r ans Hin domain.
  destruct (Present_create_event GetRecord d given token keyAuth w zone r ans Hin)
    as (dom & zs & az & Hfix & Htr & Hr).
  apply wildcardFixup_domain in Hfix. destruct Hfix as [_ ->].
  split; [eauto | exact Hr].
Qed.

Lemma Present_create_call_witness :
  let remote := account.remote [cns.mkDomain 1 "example.com"] (OK "example.com.") [] in
  let r :=
    cns.mkRecord 0 600 "47DEQpj8HBSa-_TImW-5JCeuQeRkm5NMpJWZG3hSuFU"
      "_acme-challenge.www" qcloud.default_line "TXT" in
  (exists zones authZone,
      trace (@run remote _
               (qcloud.Present account.GetRecord account.provider
                  "*.www.example.com" "token" "") [])
      = [EDomainList (OK zones);
         EFindZoneByFqdn (dns01.ToFqdn (spec.without_wildcard "*.www.example.com"))
           (OK authZone);
         ERecordCreate "example.com" r (OK 1)])
  /\ r = {| cns.Id := 0;
            cns.Ttl := qcloud.TTL (qcloud.config account.provider);
            cns.Value :=
              snd (account.GetRecord (spec.without_wildcard "*.www.example.com") "");
            cns.Name :=
              qcloud.extractRecordName
                (fst (account.GetRecord (spec.without_wildcard "*.www.example.com") ""))
                "example.com";
            cns.Line := qcloud.default_line;
            cns.Type_ := "TXT" |}.
Proof.
  intros remote r.
  apply (Present_create_call remote account.GetRecord account.provider
           "*.www.example.com" "token" "" [] "example.com" r (OK 1)).
  simpl. right; right; left. reflexivity.
Defined.

(** X8.  A provider built by [NewDNSProvider] works with the settings of the
    environment: [Timeout] returns the propagation timeout and the polling
    interval read from it, or the framework's defaults, and every record
    [Present] asks the vendor to create has the TTL read from [QCLOUD_TTL],
    or 600. *)
Theorem provider_from_environment_settings :
  forall (env_Get : list string -> res (list (string * string)))
         (env_GetOrDefaultInt : string -> Z -> Z)
         (env_GetOrDefaultSecond : string -> qcloud.Duration -> qcloud.Duration)
         (DefaultPropagationTimeout DefaultPollingInterval : qcloud.Duration)
         (d : qcloud.DNSProvider)
         (R : Remote) (GetRecord : string -> string -> string * string)
         (given token keyAuth : string) (w : World R),
    qcloud.NewDNSProvider env_Get env_GetOrDefaultInt env_GetOrDefaultSecond
      DefaultPropagationTimeout DefaultPollingInterval = OK d ->
    run (qcloud.Timeout d) w
    = mkRun
        (Returned
           (env_GetOrDefaultSecond "QCLOUD_PROPAGATION_TIMEOUT" DefaultPropagationTimeout,
            env_GetOrDefaultSecond "QCLOUD_POLLING_INTERVAL" DefaultPollingInterval))
        [] w
    /\ forall zone r ans,
         In (ERecordCreate zone r ans)
            (trace (run (qcloud.Present GetRecord d given token keyAuth) w)) ->
         cns.Ttl r = env_GetOrDefaultInt "QCLOUD_TTL" 600.
Proof.
  intros env_Get gi gs dpt dpi d R GetRecord given token keyAuth w Hd.
  destruct (NewDNSProvider_config env_Get gi gs dpt dpi d Hd) as (values & _ & _ & ->).
  split; [reflexivity |].
  intros zone r ans Hin.
  destruct (Present_create_event GetRecord _ given token keyAuth w zone r ans Hin)
    as (dom & zs & az & _ & _ & ->).
  reflexivity.
Qed.

Lemma provider_from_environment_settings_witness :
  let d :=
    qcloud.mkDNSProvider
      (qcloud.mkConfig "AKIDexample" "secret" 120 (60 * qcloud.Second)
         (2 * qcloud.Second) (Some (qcloud.mkHttpClient 0)))
      (cns.New "AKIDexample" "secret") in
  let remote := account.remote [cns.mkDomain 1 "example.com"] (OK "example.com.") [] in
  @run remote _ (qcloud.Timeout d) []
  = @mkRun remote _ (Returned (60 * qcloud.Second, 2 * qcloud.Second)) [] []
  /\ forall zone r ans,
       In (ERecordCreate zone r ans)
          (trace (@run remote _
                    (qcloud.Present account.GetRecord d "example.com" "token" "") [])) ->
       cns.Ttl r = 120.
Proof.
  intros d remote.
  apply (provider_from_environment_settings sample.env_Get sample.env_GetOrDefaultInt
           sample.env_GetOrDefaultSecond (60 * qcloud.Second) (2 * qcloud.Second)
           d remote account.GetRecord "example.com" "token" "" []).
  reflexivity.
Defined.

(** ** When the resolver fails *)

Lemma hostedZone_resolver_failed domain tr z fqdn e :
  shape.hostedZone domain tr z ->
  In (EFindZoneByFqdn fqdn (Err e)) tr ->
  z = Err e
  /\ fqdn = dns01.ToFqdn domain
  /\ exists zones, tr = [EDomainList (OK zones); EFindZoneByFqdn fqdn (Err e)].
Proof.
  intros H Hin. inversion H; subst; simpl in Hin;
    repeat match goal with
           | Hor : _ \/ _ |- _ => destruct Hor
           end; try discriminate; try contradiction.
  match goal with
  | Heq : EFindZoneByFqdn _ _ = EFindZoneByFqdn _ _ |- _ => injection Heq as <- <-
  end. eauto.
Qed.

Lemma hostedZone_found_resolved domain tr id zoneName fqdn e :
  shape.hostedZone domain tr (OK (id, zoneName)) ->
  ~ In (EFindZoneByFqdn fqdn (Err e)) tr.
Proof.
  intros H Hin. destruct (hostedZone_resolver_failed _ _ _ _ _ H Hin) as [Hz _].
  discriminate.
Qed.

Lemma txtRecords_listed_inv domain fqdn tr records :
  shape.txtRecords domain fqdn tr (OK records) ->
  exists zones authZone zoneName listing,
    tr = [EDomainList (OK zones);
          EFindZoneByFqdn (dns01.ToFqdn domain) (OK authZone);
          ERecordList zoneName (OK listing)]
    /\ zoneName = cns.DomainName (qcloud.pickZone zones (dns01.UnFqdn authZone))
    /\ records
       = filter
           (fun record =>
              String.eqb (cns.Name record) (qcloud.extractRecordName fqdn zoneName))
           listing.
Proof.
  intros H. inversion H as [| | tr0 id zn listing Hz]; subst.
  destruct (hostedZone_found_inv _ _ _ _ Hz) as (zones & authZone & -> & _ & Hzn).
  exists zones, authZone, zn, listing. auto.
Qed.

(** X9.  An error of the resolver's [FindZoneByFqdn] ends the operation at
    that lookup.  [Present] returns the resolver's error as it is, with no
    context added.  [CleanUp] returns it wrapped, the cause kept, with the
    context of the step that looked the zone up: [findTxtRecords] for the
    first lookup, [getHostedZone] for the second. *)
Theorem resolver_failure_is_returned :
  forall (R : Remote) (GetRecord : string -> string -> string * string)
         (d : qcloud.DNSProvider) (given token keyAuth : string) (w : World R)
         (fqdn : string) (e : error),
    let present := run (qcloud.Present GetRecord d given token keyAuth) w in
    let cleanup := run (qcloud.CleanUp GetRecord d given token keyAuth) w in
    (In (EFindZoneByFqdn fqdn (Err e)) (trace present) ->
       result present = Returned (Some e)
       /\ exists zones,
            trace present = [EDomainList (OK zones); EFindZoneByFqdn fqdn (Err e)])
    /\ (In (EFindZoneByFqdn fqdn (Err e)) (trace cleanup) ->
          (result cleanup
             = Returned (Some (wrapError ("CleanUp(): findTxtRecords err: " ++ Error e) e))
           /\ exists zones,
                trace cleanup = [EDomainList (OK zones); EFindZoneByFqdn fqdn (Err e)])
          \/ (result cleanup
                = Returned (Some (wrapError ("CleanUp(): getHostedZone err: " ++ Error e) e))
              /\ exists zones authZone zoneName listing zones',
                   trace cleanup
                   = [EDomainList (OK zones);
                      EFindZoneByFqdn fqdn (OK authZone);
                      ERecordList zoneName (OK listing);
                      EDomainList (OK zones');
                      EFindZoneByFqdn fqdn (Err e)])).
Proof.
  intros R GetRecord d given token keyAuth w fqdn e present cleanup.
  subst present cleanup. split.
  - intros Hin.
    destruct (Present_trace GetRecord d given token keyAuth w)
      as [[Hnil _] | (domain & out & _ & Hres & Hs)].
    + rewrite Hnil in Hin. destruct Hin.
    + rewrite Hres.
      inversion Hs as [tr e0 Hz | tr id zn e0 Hz Htr | tr id zn n Hz Htr]; subst.
      * destruct (hostedZone_resolver_failed _ _ _ _ _ Hz Hin) as (Hz' & _ & Htr).
        injection Hz' as ->. auto.
      * rewrite <- Htr in Hin. apply in_app_or in Hin.
        destruct Hin as [Hin | [Hin | []]]; [| discriminate].
        now apply (hostedZone_found_resolved _ _ _ _ _ _ Hz) in Hin.
      * rewrite <- Htr in Hin. apply in_app_or in Hin.
        destruct Hin as [Hin | [Hin | []]]; [| discriminate].
        now apply (hostedZone_found_resolved _ _ _ _ _ _ Hz) in Hin.
  - intros Hin.
    destruct (CleanUp_trace GetRecord d given token keyAuth w)
      as [[Hnil _] | (domain & out & _ & Hres & Hs)].
    + rewrite Hnil in Hin. destruct Hin.
    + rewrite Hres.
      inversion Hs as [tr e0 Htxt Htr
                      | tr records tr' e0 Htxt Hz Htr
                      | tr records tr' id zn tr'' o Htxt Hz Hd Htr]; subst.
      * left.
        inversion Htxt as [tr0 e1 Hz | tr0 id zn e1 Hz Htr0 |]; subst.
        -- destruct (hostedZone_resolver_failed _ _ _ _ _ Hz Hin) as (Hz' & _ & Htr').
           injection Hz' as ->. auto.
        -- rewrite <- Htr0 in Hin. apply in_app_or in Hin.
           destruct Hin as [Hin | [Hin | []]]; [| discriminate].
           now apply (hostedZone_found_resolved _ _ _ _ _ _ Hz) in Hin.
      * right.
        destruct (txtRecords_listed_inv _ _ _ _ Htxt)
          as (zones & authZone & zn & listing & Htr1 & _ & _).
        rewrite <- Htr in Hin. rewrite Htr1 in Hin |- *.
        apply in_app_or in Hin.
        destruct Hin as [Hin | Hin];
          [simpl in Hin; intuition discriminate |].
        destruct (hostedZone_resolver_failed _ _ _ _ _ Hz Hin)
          as (Hz' & Hfq & zones' & Htr2).
        injection Hz' as ->. split; [reflexivity |].
        rewrite Htr2, Hfq. simpl. eauto 6.
      * exfalso.
        destruct (txtRecords_listed_inv _ _ _ _ Htxt)
          as (zones & authZone & zn0 & listing & Htr1 & _ & _).
        rewrite <- Htr in Hin. rewrite Htr1 in Hin.
        apply in_app_or in Hin.
        destruct Hin as [Hin | Hin]; [simpl in Hin; intuition discriminate |].
        apply in_app_or in Hin. destruct Hin as [Hin | Hin].
        -- now apply (hostedZone_found_resolved _ _ _ _ _ _ Hz) in Hin.
        -- destruct (deletes_events _ _ _ _ Hd _ Hin) as (i & a & Hev). discriminate.
Qed.

(** ** More on what CleanUp deletes *)


Lemma deletes_event_record zoneName records tr out zone id ans :
  shape.deletes zoneName records tr out ->
  In (ERecordDelete zone id ans) tr ->
  zone = zoneName /\ exists rec, In rec records /\ cns.Id rec = id.
Proof.
  induction 1 as [| rec rest e | rec rest tr out _ IH]; intros Hin.
  - destruct Hin.
  - destruct Hin as [Heq | []]. injection Heq as <- <- _.
    split; [reflexivity |]. exists rec. split; [now left | reflexivity].
  - destruct Hin as [Heq | Hin].
    + injection Heq as <- <- _.
      split; [reflexivity |]. exists rec. split; [now left | reflexivity].
    + destruct (IH Hin) as (Hz & r & Hr & Hid).
      split; [exact Hz |]. exists r. split; [now right | exact Hid].
Qed.

Lemma deletes_first_failed zoneName records tr out ev :
  shape.deletes zoneName records tr out ->
  first_failed tr = Some ev ->
  exists id e,
    ev = ERecordDelete zoneName id (Some e)
    /\ out = Some (Errorf_w "CleanUp(): qcloud cns: RecordDelete err: " e).
Proof.
  induction 1 as [| rec rest e | rec rest tr out _ IH]; simpl; intros Hf.
  - discriminate.
  - injection Hf as <-. eauto.
  - auto.
Qed.



(** X11.  Every deletion [CleanUp] asks for is that of a record the vendor
    listed under the record name: its id comes from the listing of the zone
    found by the first lookup.  The zone named in the deletion is the one
    found by the second lookup, made after the listing. *)
Theorem CleanUp_deletes_listed_records :
  forall (R : Remote) (GetRecord : string -> string -> string * string)
         (d : qcloud.DNSProvider) (given token keyAuth : string) (w : World R)
         (zone : string) (id : Z) (ans : option error),
    let r := run (qcloud.CleanUp GetRecord d given token keyAuth) w in
    In (ERecordDelete zone id ans) (trace r) ->
    exists zones authZone listed listing zones' authZone' dels rec,
      trace r
      = ([EDomainList (OK zones);
          EFindZoneByFqdn (dns01.ToFqdn (spec.without_wildcard given)) (OK authZone);
          ERecordList listed (OK listing);
          EDomainList (OK zones');
          EFindZoneByFqdn (dns01.ToFqdn (spec.without_wildcard given)) (OK authZone')]
         ++ dels)%list
      /\ listed = cns.DomainName (qcloud.pickZone zones (dns01.UnFqdn authZone))
      /\ zone = cns.DomainName (qcloud.pickZone zones' (dns01.UnFqdn authZone'))
      /\ In rec listing
      /\ cns.Id rec = id
      /\ cns.Name rec
         = qcloud.extractRecordName
             (fst (GetRecord (spec.without_wildcard given) keyAuth)) listed.
Proof.
  intros R GetRecord d given token keyAuth w zone id ans r Hin. subst r.
  destruct (CleanUp_trace GetRecord d given token keyAuth w)
    as [[Hnil _] | (domain & out & Hfix & Hres & Hs)].
  - rewrite Hnil in Hin. destruct Hin.
  - apply wildcardFixup_domain in Hfix. destruct Hfix as [_ <-].
    apply cleanUp_forms in Hs.
    destruct Hs as [(e & Htr & _) | [(zs & a & err & Htr & _)
      | [(zs & az & zn & e & Htr & _)
      | [(zs & az & zn & l & e & Htr & _) | [(zs & az & zn & l & zs' & a & err & Htr & _)
      | (zs & az & zn & l & zs' & az' & zn' & dels & Htr & Hzn & _ & Hzn' & Hd)]]]]];
      rewrite Htr in Hin |- *;
      try (simpl in Hin; intuition discriminate).
    apply in_app_or in Hin. destruct Hin as [Hin | Hin];
      [simpl in Hin; intuition discriminate |].
    destruct (deletes_event_record _ _ _ _ _ _ _ Hd Hin) as (-> & rec & Hrec & Hid).
    apply filter_In in Hrec. destruct Hrec as [Hrec Hname].
    apply String.eqb_eq in Hname.
    exists zs, az, zn, l, zs', az', dels, rec. repeat split; auto.
Qed.

Lemma CleanUp_deletes_listed_records_witness :
  let remote := account.remote [cns.mkDomain 1 "example.com"] (OK "example.com.") [] in
  let listing :=
    [account.txt 6 "www" "v=spf1 -all"; account.txt 7 "_acme-challenge" "old"] in
  let r :=
    @run remote _
      (qcloud.CleanUp account.GetRecord account.provider "*.example.com" "token" "")
      listing in
  exists zones authZone listed listing' zones' authZone' dels rec,
    trace r
    = ([EDomainList (OK zones);
        EFindZoneByFqdn (dns01.ToFqdn (spec.without_wildcard "*.example.com"))
          (OK authZone);
        ERecordList listed (OK listing');
        EDomainList (OK zones');
        EFindZoneByFqdn (dns01.ToFqdn (spec.without_wildcard "*.example.com"))
          (OK authZone')]
       ++ dels)%list
    /\ listed = cns.DomainName (qcloud.pickZone zones (dns01.UnFqdn authZone))
    /\ "example.com" = cns.DomainName (qcloud.pickZone zones' (dns01.UnFqdn authZone'))
    /\ In rec listing'
    /\ cns.Id rec = 7
    /\ cns.Name rec
       = qcloud.extractRecordName
           (fst (account.GetRecord (spec.without_wildcard "*.example.com") "")) listed.
Proof.
  intros remote listing r.
  apply (CleanUp_deletes_listed_records remote account.GetRecord account.provider
           "*.example.com" "token" "" listing "example.com" 7 None).
  simpl. do 5 right. left. reflexivity.
Defined.

(** X12.  [CleanUp] does not read the token, and reads the key
    authorization only for the FQDN of the challenge: with the same FQDN,
    two calls of [CleanUp] are the same computation, whatever the challenge
    value.  Records of the same name set for another key authorization are
    deleted with the others. *)
Theorem CleanUp_ignores_challenge_value :
  forall (GetRecord : string -> string -> string * string)
         (d : qcloud.DNSProvider) (given token token' keyAuth keyAuth' : string),
    fst (GetRecord (spec.without_wildcard given) keyAuth)
      = fst (GetRecord (spec.without_wildcard given) keyAuth') ->
    qcloud.CleanUp GetRecord d given token keyAuth
    = qcloud.CleanUp GetRecord d given token' keyAuth'.
Proof.
  intros GetRecord d given token token' keyAuth keyAuth' Hfqdn.
  unfold qcloud.CleanUp.
  destruct (qcloud.wildcardFixup given) as [e | domain] eqn:Hfix; [reflexivity |].
  apply wildcardFixup_domain in Hfix. destruct Hfix as [_ ->].
  unfold qcloud.cleanUpDomain.
  destruct (GetRecord (spec.without_wildcard given) keyAuth) as [fqdn value].
  destruct (GetRecord (spec.without_wildcard given) keyAuth') as [fqdn' value'].
  simpl in Hfqdn. subst fqdn'. reflexivity.
Qed.

Lemma CleanUp_ignores_challenge_value_witness :
  qcloud.CleanUp
    (fun domain keyAuth => ("_acme-challenge." ++ domain ++ ".", "digest of " ++ keyAuth))
    account.provider "example.com" "token" "first"
  = qcloud.CleanUp
      (fun domain keyAuth => ("_acme-challenge." ++ domain ++ ".", "digest of " ++ keyAuth))
      account.provider "example.com" "other token" "second".
Proof.
  apply (CleanUp_ignores_challenge_value
           (fun domain keyAuth =>
              ("_acme-challenge." ++ domain ++ ".", "digest of " ++ keyAuth))
           account.provider "example.com" "token" "other token" "first" "second").
  reflexivity.
Defined.

(** ** CleanUp when the lookups and the listing succeed *)

Section CleanUpRun.
Import qcloud.
Context {R : Remote}.
Variable GetRecord : string -> string -> string * string.
Variables (d : DNSProvider) (domain keyAuth : string).
Variables (zones zones' : list cns.Domain) (authZone authZone' : string).
Variable listing : list cns.Record.
Variables w w1 w2 w3 w4 w5 : World R.

Let zoneName : string := cns.DomainName (pickZone zones (dns01.UnFqdn authZone)).
Let zoneName' : string := cns.DomainName (pickZone zones' (dns01.UnFqdn authZone')).

Hypothesis listed : doDomainList R w = (OK zones, w1).
Hypothesis resolved : doFindZoneByFqdn R (dns01.ToFqdn domain) w1 = (OK authZone, w2).
Hypothesis found : cns.DomainId (pickZone zones (dns01.UnFqdn authZone)) <> 0.
Hypothesis records : doRecordList R zoneName w2 = (OK listing, w3).
Hypothesis listed' : doDomainList R w3 = (OK zones', w4).
Hypothesis resolved' :
  doFindZoneByFqdn R (dns01.ToFqdn domain) w4 = (OK authZone', w5).
Hypothesis found' : cns.DomainId (pickZone zones' (dns01.UnFqdn authZone')) <> 0.

Lemma run_getHostedZone_found :
  run (getHostedZone d domain) w
  = mkRun
      (Returned
         (OK (strings.Sprintf_v (cns.DomainId (pickZone zones (dns01.UnFqdn authZone))),
              zoneName)))
      [EDomainList (OK zones); EFindZoneByFqdn (dns01.ToFqdn domain) (OK authZone)]
      w2.
Proof.
  rewrite (run_getHostedZone d domain zones authZone w w1 w2 listed resolved).
  rewrite <- pickZone_last.
  destruct (Z.eqb_spec (cns.DomainId (pickZone zones (dns01.UnFqdn authZone))) 0);
    [contradiction | reflexivity].
Qed.

Lemma run_getHostedZone_found' :
  run (getHostedZone d domain) w3
  = mkRun
      (Returned
         (OK (strings.Sprintf_v (cns.DomainId (pickZone zones' (dns01.UnFqdn authZone'))),
              zoneName')))
      [EDomainList (OK zones'); EFindZoneByFqdn (dns01.ToFqdn domain) (OK authZone')]
      w5.
Proof.
  rewrite (run_getHostedZone d domain zones' authZone' w3 w4 w5 listed' resolved').
  rewrite <- pickZone_last.
  destruct (Z.eqb_spec (cns.DomainId (pickZone zones' (dns01.UnFqdn authZone'))) 0);
    [contradiction | reflexivity].
Qed.

(** After the two lookups and the listing, [CleanUp] is the delete loop on
    the listed records of the record name. *)
Lemma run_cleanUpDomain_found :
  run (cleanUpDomain GetRecord d domain keyAuth) w
  = let deleting :=
      run (deleteRecords zoneName'
             (filter
                (fun record =>
                   String.eqb (cns.Name record)
                     (extractRecordName (fst (GetRecord domain keyAuth)) zoneName))
                listing))
          w5 in
    mkRun (result deleting)
      ([EDomainList (OK zones);
        EFindZoneByFqdn (dns01.ToFqdn domain) (OK authZone);
        ERecordList zoneName (OK listing);
        EDomainList (OK zones');
        EFindZoneByFqdn (dns01.ToFqdn domain) (OK authZone')] ++ trace deleting)
      (final deleting).
Proof.
  unfold cleanUpDomain, findTxtRecords.
  destruct (GetRecord domain keyAuth) as [fqdn value]. cbn [fst].
  rewrite !run_bind, run_getHostedZone_found. cbn [result final trace].
  cbn [run]. fold zoneName. rewrite records. cbn [logged result final trace run].
  rewrite run_bind, run_getHostedZone_found'. cbn [result final trace].
  destruct (deleteRecords_shape zoneName'
              (filter
                 (fun record =>
                    String.eqb (cns.Name record) (extractRecordName fqdn zoneName))
                 listing) w5) as [out [Hres _]].
  cbv zeta. rewrite Hres. reflexivity.
Qed.

End CleanUpRun.

Lemma filter_none {A : Type} (f : A -> bool) (l : list A) :
  (forall x, In x l -> f x = false) -> filter f l = [].
Proof.
  induction l as [| x l IH]; intros Hf; [reflexivity |].
  simpl. rewrite (Hf x (or_introl eq_refl)). apply IH.
  intros y Hy. apply Hf. now right.
Qed.

(** X13.  With nothing to clean up, [CleanUp] succeeds: when both zone
    lookups succeed and the vendor's listing holds no record of the record
    name (an empty listing among others), [CleanUp] returns nil after the
    five lookup and listing calls and asks for no deletion. *)
Theorem CleanUp_nothing_to_delete :
  forall (R : Remote) (GetRecord : string -> string -> string * string)
         (d : qcloud.DNSProvider) (given token keyAuth domain : string)
         (zones zones' : list cns.Domain) (authZone authZone' : string)
         (listing : list cns.Record) (w w1 w2 w3 w4 w5 : World R),
    qcloud.wildcardFixup given = inr domain ->
    doDomainList R w = (OK zones, w1) ->
    doFindZoneByFqdn R (dns01.ToFqdn domain) w1 = (OK authZone, w2) ->
    cns.DomainId (qcloud.pickZone zones (dns01.UnFqdn authZone)) <> 0 ->
    doRecordList R (cns.DomainName (qcloud.pickZone zones (dns01.UnFqdn authZone))) w2
      = (OK listing, w3) ->
    doDomainList R w3 = (OK zones', w4) ->
    doFindZoneByFqdn R (dns01.ToFqdn domain) w4 = (OK authZone', w5) ->
    cns.DomainId (qcloud.pickZone zones' (dns01.UnFqdn authZone')) <> 0 ->
    (forall rec,
        In rec listing ->
        cns.Name rec
        <> qcloud.extractRecordName (fst (GetRecord domain keyAuth))
             (cns.DomainName (qcloud.pickZone zones (dns01.UnFqdn authZone)))) ->
    run (qcloud.CleanUp GetRecord d given token keyAuth) w
    = mkRun (Returned None)
        [EDomainList (OK zones);
         EFindZoneByFqdn (dns01.ToFqdn domain) (OK authZone);
         ERecordList (cns.DomainName (qcloud.pickZone zones (dns01.UnFqdn authZone)))
           (OK listing);
         EDomainList (OK zones');
         EFindZoneByFqdn (dns01.ToFqdn domain) (OK authZone')]
        w5.
Proof.
  intros R GetRecord d given token keyAuth domain zones zones' authZone authZone'
         listing w w1 w2 w3 w4 w5 Hfix Hl Hr Hf Hrec Hl' Hr' Hf' Hnone.
  unfold qcloud.CleanUp. rewrite Hfix.
  rewrite (run_cleanUpDomain_found GetRecord d domain keyAuth zones zones'
             authZone authZone' listing w w1 w2 w3 w4 w5 Hl Hr Hf Hrec Hl' Hr' Hf').
  rewrite filter_none; [reflexivity |].
  intros rec Hin. apply String.eqb_neq. now apply Hnone.
Qed.

Lemma CleanUp_nothing_to_delete_witness :
  let zones := [cns.mkDomain 1 "example.com"] in
  let remote := account.remote zones (OK "example.com.") [] in
  let listing := [account.txt 6 "www" "v=spf1 -all"] in
  @run remote _
    (qcloud.CleanUp account.GetRecord account.provider "example.com" "token" "")
    listing
  = @mkRun remote _ (Returned None)
      [EDomainList (OK zones);
       EFindZoneByFqdn (dns01.ToFqdn "example.com") (OK "example.com.");
       ERecordList
         (cns.DomainName (qcloud.pickZone zones (dns01.UnFqdn "example.com.")))
         (OK listing);
       EDomainList (OK zones);
       EFindZoneByFqdn (dns01.ToFqdn "example.com") (OK "example.com.")]
      listing.
Proof.
  intros zones remote listing.
  apply (CleanUp_nothing_to_delete remote account.GetRecord account.provider
           "example.com" "token" "" "example.com" zones zones
           "example.com." "example.com." listing
           listing listing listing listing listing listing).
  - reflexivity.
  - reflexivity.
  - reflexivity.
  - discriminate.
  - reflexivity.
  - reflexivity.
  - reflexivity.
  - discriminate.
  - intros rec [<- | []]. discriminate.
Defined.

(** ** The cause of a returned error *)

Section Causes.
Import qcloud.
Variables (d : DNSProvider) (domain fqdn value : string).

Lemma present_failed_cause tr out ev :
  shape.present d domain fqdn value tr out ->
  first_failed tr = Some ev ->
  exists err, out = Some err /\ Unwrap err = None.
Proof.
  intros H Hf. apply present_forms in H.
  destruct H as [(e0 & -> & ->) | [(zs & a & err & -> & _)
                                  | (zs & az & zn & a & -> & _ & _ & ->)]];
    simpl in Hf.
  - eexists; split; reflexivity.
  - discriminate.
  - destruct a as [n | e0]; [discriminate |]. eexists; split; reflexivity.
Qed.

Lemma cleanUp_failed_cause tr out ev :
  shape.cleanUp domain fqdn tr out ->
  first_failed tr = Some ev ->
  exists err cause,
    out = Some err
    /\ Unwrap err = Some cause
    /\ match ev with
       | ERecordDelete _ _ (Some e) => cause = e
       | _ => Unwrap cause = None
       end.
Proof.
  intros H Hf. apply cleanUp_forms in H.
  open_forms; subst; simpl in Hf; try discriminate.
  - injection Hf as <-. do 2 eexists. repeat split.
  - injection Hf as <-. do 2 eexists. repeat split.
  - injection Hf as <-. do 2 eexists. repeat split.
  - match goal with
    | Hd : shape.deletes _ _ _ _ |- _ =>
        destruct (deletes_first_failed _ _ _ _ _ Hd Hf) as (id & e & -> & ->)
    end.
    do 2 eexists. repeat split.
Qed.

End Causes.

(** X14.  What [errors.Unwrap] finds in the error returned after a vendor
    call failed.  [Present] formats the vendor's error into the message and
    returns an error with no cause.  [CleanUp] returns an error with a cause:
    the vendor's error itself when a [RecordDelete] failed, and for a failed
    [DomainList] or [RecordList] an error made of the message only, which in
    turn has no cause. *)
Theorem vendor_error_cause :
  forall (R : Remote) (GetRecord : string -> string -> string * string)
         (d : qcloud.DNSProvider) (given token keyAuth : string) (w : World R)
         (ev : event),
    let present := run (qcloud.Present GetRecord d given token keyAuth) w in
    let cleanup := run (qcloud.CleanUp GetRecord d given token keyAuth) w in
    (first_failed (trace present) = Some ev ->
       exists err, result present = Returned (Some err) /\ Unwrap err = None)
    /\ (first_failed (trace cleanup) = Some ev ->
          exists err cause,
            result cleanup = Returned (Some err)
            /\ Unwrap err = Some cause
            /\ match ev with
               | ERecordDelete _ _ (Some e) => cause = e
               | _ => Unwrap cause = None
               end).
Proof.
  intros R GetRecord d given token keyAuth w ev present cleanup.
  subst present cleanup. split; intros Hf.
  - destruct (Present_trace GetRecord d given token keyAuth w)
      as [[Hnil _] | (domain & out & _ & Hres & Hs)].
    + rewrite Hnil in Hf. discriminate.
    + destruct (present_failed_cause _ _ _ _ _ _ _ Hs Hf) as (err & -> & Hu).
      rewrite Hres. eauto.
  - destruct (CleanUp_trace GetRecord d given token keyAuth w)
      as [[Hnil _] | (domain & out & _ & Hres & Hs)].
    + rewrite Hnil in Hf. discriminate.
    + destruct (cleanUp_failed_cause _ _ _ _ _ Hs Hf) as (err & cause & -> & Hu & Hc).
      rewrite Hres. eauto.
Qed.

(** ** Examples and totality *)

Lemma CleanUp_deletes_by_name_witness :
  let remote := account.remote [cns.mkDomain 1 "example.com"] (OK "example.com.") [] in
  let start :=
    [account.txt 6 "www" "v=spf1 -all";
     account.txt 7 "_acme-challenge" "old"; account.txt 8 "_acme-challenge" "new"] in
  let r :=
    @run remote _
      (qcloud.CleanUp account.GetRecord account.provider "example.com" "token" "")
      start in
  deleted_ids (trace r) = [7; 8]
  /\ exists domain zones authZone listing,
       qcloud.wildcardFixup "example.com" = inr domain
       /\ In (ERecordList
                (cns.DomainName (qcloud.pickZone zones (dns01.UnFqdn authZone)))
                (OK listing))
             (trace r)
       /\ deleted_ids (trace r)
          = map cns.Id
              (filter
                 (fun record =>
                    String.eqb (cns.Name record)
                      (qcloud.extractRecordName
                         (fst (account.GetRecord domain ""))
                         (cns.DomainName
                            (qcloud.pickZone zones (dns01.UnFqdn authZone)))))
                 listing).
Proof.
  intros remote start r. split; [reflexivity |].
  apply (CleanUp_deletes_by_name remote account.GetRecord account.provider
           "example.com" "token" "" start).
  reflexivity.
Defined.

Lemma extractRecordName_suffix_only_witness :
  qcloud.extractRecordName "_acme-challenge.www.example.com." "example.com"
  = spec.leaf_name "_acme-challenge.www.example.com." "example.com".
Proof.
  apply (extractRecordName_suffix_only "_acme-challenge.www.example.com." "example.com").
  intros idx Hidx. vm_compute in Hidx. injection Hidx as <-. reflexivity.
Defined.


(** X18.  [getHostedZone] makes the two lookups and nothing else, and does
    not panic.  When it succeeds, the zone it returns is one the vendor
    listed, with an id other than zero, returned in decimal, and with the
    name of the authoritative zone without its trailing dot. *)
Theorem getHostedZone_result :
  forall (R : Remote) (d : qcloud.DNSProvider) (domain : string) (w : World R),
    let r := run (qcloud.getHostedZone d domain) w in
    exists z,
      result r = Returned z
      /\ executions RecordListSite (trace r) = 0%nat
      /\ executions RecordCreateSite (trace r) = 0%nat
      /\ executions RecordDeleteSite (trace r) = 0%nat
      /\ (executions DomainListSite (trace r) = 1)%nat
      /\ forall id name,
           z = OK (id, name) ->
           exists zones authZone zone,
             trace r = [EDomainList (OK zones);
                        EFindZoneByFqdn (dns01.ToFqdn domain) (OK authZone)]
             /\ In zone zones
             /\ cns.DomainId zone <> 0
             /\ id = strings.Sprintf_v (cns.DomainId zone)
             /\ name = cns.DomainName zone
             /\ name = dns01.UnFqdn authZone.
Proof.
  intros R d domain w r. subst r.
  destruct (getHostedZone_shape d domain w) as [z [Hres Hs]].
  exists z. split; [exact Hres |].
  generalize dependent (trace (run (qcloud.getHostedZone d domain) w)).
  intros tr Hs.
  inversion Hs as [e Htr Hz | zones e Htr Hz | zones authZone Hid Htr Hz
                  | zones authZone Hid Htr Hz];
    (split; [reflexivity |]); (split; [reflexivity |]); (split; [reflexivity |]);
    (split; [reflexivity |]); intros id name Heq; try discriminate.
  injection Heq as <- <-.
  destruct (pickZone_matched zones (dns01.UnFqdn authZone) Hid) as [Hin Hname].
  exists zones, authZone, (qcloud.pickZone zones (dns01.UnFqdn authZone)).
  repeat split; auto.
Qed.
